(** * Bearer-token gate and signin of the blogging backend

    A shallow embedding of [src/middleware.ts] ([authMiddleware]) and of the
    route handlers and schemas of [src/index.ts], together with the
    properties the specification states about them and further properties
    read off the code.

    The HTTP framework (hono), the token library (hono/jwt), the schema
    validator (zod) and the database client (prisma) are libraries the
    service calls; they enter the development as parameters of the sections
    below.  The handlers are transcribed from the two source files.  The
    token codec, whose code is not among them, is modelled after the
    contract the specification gives for it ([TokenCodec]). *)

From Stdlib Require Import ZArith Ascii String List Bool Lia.
From Stdlib Require Import DecimalString DecimalZ.
From stdpp Require Import base option gmap strings list.

Set Warnings "-register-all".

Local Open Scope string_scope.
Local Open Scope Z_scope.
Local Open Scope list_scope.

(** ** JavaScript values *)

(** The values the handlers move around: what [JSON.parse] can produce, plus
    [undefined].  Numbers are the integers (ids are SERIAL columns); [NaN]
    and fractions do not occur in the code paths modelled here. *)
Inductive value : Type :=
| VUndefined
| VNull
| VBool (b : bool)
| VNum (n : Z)
| VStr (s : string)
| VArr (items : list value)
| VObj (fields : list (string * value)).

(** ECMAScript [ToBoolean]: what [if (x)] and [!x] test. *)
Definition truthy (v : value) : bool :=
  match v with
  | VUndefined | VNull => false
  | VBool b => b
  | VNum n => negb (n =? 0)
  | VStr s => negb (String.eqb s "")
  | VArr _ | VObj _ => true
  end.

(** Property read [o.k] on an object literal: the last binding of a key wins,
    a missing key reads as [undefined]. *)
Fixpoint lookup_field (k : string) (fields : list (string * value)) : value :=
  match fields with
  | [] => VUndefined
  | (k', v) :: rest =>
      match lookup_field k rest with
      | VUndefined => if String.eqb k k' then v else VUndefined
      | later => later
      end
  end.

(** Optional chaining [v?.k]: [undefined] on [null] and [undefined], the
    property otherwise (primitives have no own data properties here). *)
Definition opt_chain (v : value) (k : string) : value :=
  match v with
  | VObj fields => lookup_field k fields
  | _ => VUndefined
  end.

(** ** JavaScript string operations used by the gate *)

(** [s.startsWith(p)] *)
Fixpoint startsWith (s p : string) {struct p} : bool :=
  match p with
  | EmptyString => true
  | String c p' =>
      match s with
      | EmptyString => false
      | String d s' => Ascii.eqb c d && startsWith s' p'
      end
  end.

(** [s.slice(n)] for [n >= 0]: the characters from index [n] on, the empty
    string when [s] is shorter. *)
Fixpoint slice (s : string) (n : nat) {struct n} : string :=
  match n with
  | O => s
  | S n' =>
      match s with
      | EmptyString => EmptyString
      | String _ s' => slice s' n'
      end
  end.

(** A string is held as the bytes of its UTF-8 encoding.  [s.length]
    counts UTF-16 code units: one for every character of the basic plane
    (a sequence of one to three bytes) and two, a surrogate pair, for every
    other character (a sequence of four bytes).  A byte [10xxxxxx] continues
    a sequence and counts for nothing. *)
Definition utf16_units (byte : ascii) : nat :=
  let n := N_of_ascii byte in
  if (n <? 128)%N then 1%nat
  else if (n <? 192)%N then 0%nat
  else if (n <? 240)%N then 1%nat
  else 2%nat.

(** [s.length] *)
Fixpoint js_length (s : string) : nat :=
  match s with
  | EmptyString => 0%nat
  | String byte rest => (utf16_units byte + js_length rest)%nat
  end.

(** ** Errors, responses, requests *)

(** An issue of a [ZodError]: where it is and what it says. *)
Record zod_issue : Type := Issue { issue_path : list string; issue_message : string }.

(** The two ways the token codec fails, as the specification names them. *)
Inductive jwt_failure : Type := InvalidSignature | Malformed.

(** Thrown values.  The handlers only ask whether an error is a [ZodError]. *)
Inductive error : Type :=
| ZodError (issues : list zod_issue)
| JwtError (why : jwt_failure)
| OtherError (msg : string).

(** The outcome of evaluating (and awaiting) an expression. *)
Inductive completion (A : Type) : Type :=
| Normal (a : A)
| Thrown (e : error).
Arguments Normal {A} a.
Arguments Thrown {A} e.

Inductive resp_body : Type :=
| JsonBody (v : value)
| TextBody (s : string).

Record Response : Type := mkResponse { status : Z; body : resp_body }.

(** [c.json(obj, status)] and [c.body(text, status)]; the status defaults to
    200. *)
Definition c_json (obj : value) (st : Z) : Response := mkResponse st (JsonBody obj).
Definition c_body (text : string) (st : Z) : Response := mkResponse st (TextBody text).

(** What a handler reads of the request: [c.req.header(name)] and the
    outcome of [await c.req.json()]. *)
Record Request : Type := mkRequest {
  req_header : string -> option string;
  req_json : completion value
}.

(** [interface Env] *)
Record Env : Type := mkEnv { DATABASE_URL : string; DIRECT_URL : option string }.

(** ** The state a handler can reach *)

Section World.

(** State outside the request (the database, module globals). *)
Context {Ext : Type}.

Record World : Type := mkWorld {
  request : Request;
  env : Env;
  vars : gmap string value;   (* the context variables of [c.set]/[c.get] *)
  ext : Ext
}.

Definition set_var (k : string) (v : value) (w : World) : World :=
  mkWorld (request w) (env w) (<[k := v]> (vars w)) (ext w).

(** [c.get(k)] *)
Definition c_get (w : World) (k : string) : value :=
  match vars w !! k with
  | Some v => v
  | None => VUndefined
  end.

(** What a handler does, in order.  Reads are not recorded; calls into the
    token codec, writes to the context, the hand-over to the next handler
    and console output are. *)
Inductive event : Type :=
| EvVerify (token secret : string)
| EvSign (payload : value) (secret : string)
| EvSet (key : string) (v : value)
| EvNext
| EvLog (e : error).

(** A computation: from a world to the events it performs, the world it
    leaves and its completion. *)
Definition M (A : Type) : Type := World -> list event * World * completion A.

Definition ret {A} (a : A) : M A := fun w => ([], w, Normal a).

Definition bind {A B} (m : M A) (f : A -> M B) : M B :=
  fun w =>
    match m w with
    | (t1, w1, Normal a) =>
        match f a w1 with
        | (t2, w2, r) => (t1 ++ t2, w2, r)
        end
    | (t1, w1, Thrown e) => (t1, w1, Thrown e)
    end.

(** [try { m } catch (error) { h error }] *)
Definition try_catch {A} (m : M A) (h : error -> M A) : M A :=
  fun w =>
    match m w with
    | (t1, w1, Thrown e) =>
        match h e w1 with
        | (t2, w2, r) => (t1 ++ t2, w2, r)
        end
    | done => done
    end.

Definition emit (ev : event) : M unit := fun w => ([ev], w, Normal tt).

(** [await] of a library call whose outcome is [r]. *)
Definition await {A} (r : completion A) : M A := fun w => ([], w, r).

Definition get_world : M World := fun w => ([], w, Normal w).

(** [c.req.header(name)] *)
Definition header (name : string) : M (option string) :=
  fun w => ([], w, Normal (req_header (request w) name)).

(** [c.set(key, v)] *)
Definition c_set (key : string) (v : value) : M unit :=
  fun w => ([EvSet key v], set_var key v w, Normal tt).

(** [console.error(e)] *)
Definition console_error (e : error) : M unit := emit (EvLog e).

End World.

Arguments World : clear implicits.
Arguments M : clear implicits.

Declare Scope js_scope.
Delimit Scope js_scope with js.
Notation "'let*' x ':=' m 'in' k" := (bind m (fun x => k))
  (at level 10, x name, m at level 100, k at level 200) : js_scope.
Notation "m ';;' k" := (bind m (fun _ => k))
  (at level 100, k at level 200, right associativity) : js_scope.

(** ** [src/middleware.ts] *)

Module Middleware.
Section Gate.

Context {Ext : Type}.

(** [verify] of hono/jwt: the outcome of [await verify(token, secret)]. *)
Variable verify : string -> string -> completion value.

(** [next]: the rest of the handler chain.  It may change the world and it
    may reject. *)
Variable next : World Ext -> World Ext * completion unit.

Definition call_verify (token secret : string) : M Ext value :=
  (emit (EvVerify token secret) ;; await (verify token secret))%js.

Definition call_next : M Ext unit :=
  fun w => match next w with (w', r) => ([EvNext], w', r) end.

Definition access_denied : Response :=
  c_json (VObj [("message", VStr "Access Denied. No token provided.")]) 401.

Definition unauthorized_user : Response :=
  c_body "You are an unauthorized user, sorry" 401.

Definition invalid_token : Response :=
  c_json (VObj [("message", VStr "Invalid Token")]) 400.

(** [!authorizationHeader || !authorizationHeader.startsWith('Bearer ')] *)
Definition header_rejected (authorizationHeader : option string) : bool :=
  match authorizationHeader with
  | None => true
  | Some h => negb (truthy (VStr h)) || negb (startsWith h "Bearer ")
  end.

(** [authorizationHeader.slice(7)] *)
Definition token_of (authorizationHeader : option string) : string :=
  match authorizationHeader with
  | None => ""
  | Some h => slice h 7
  end.

(** The gate.  It completes with the response it returns, or with [None]
    when it falls off the end after [await next()]. *)
Definition authMiddleware : M Ext (option Response) :=
  try_catch
    (let* authorizationHeader := header "Authorization" in
     if header_rejected authorizationHeader then
       ret (Some access_denied)
     else
       let token := token_of authorizationHeader in
       let* decoded := call_verify token "BLOG_SECRET" in
       if truthy decoded then
         (c_set "user" decoded ;;
          call_next ;;
          ret None)
       else
         ret (Some unauthorized_user))%js
    (fun error =>
       (console_error error ;;
        ret (Some invalid_token))%js).

End Gate.
End Middleware.

(** ** [src/index.ts]: [POST /users/signin] *)

(** A row of the users table, with the columns the handlers read and write. *)
Record User : Type := mkUser {
  user_id : Z;
  user_username : string;
  user_email : string;
  user_password : string
}.

Definition user_json (u : User) : value :=
  VObj [("id", VNum (user_id u));
        ("username", VStr (user_username u));
        ("email", VStr (user_email u));
        ("password", VStr (user_password u))].

(** [error.errors] as JSON: one object per issue. *)
Definition issues_json (issues : list zod_issue) : value :=
  VArr (map (fun i => VObj [("path", VArr (map VStr (issue_path i)));
                            ("message", VStr (issue_message i))]) issues).

(** [prismaClient(databaseUrl)]: a client is told apart by the connection
    string it was made for. *)
Definition prismaClient (databaseUrl : string) : string := databaseUrl.

Module Signin.
Section Handler.

Context {Ext : Type}.

(** [sign] of hono/jwt: the outcome of [await sign(payload, secret)]. *)
Variable sign : value -> string -> completion string.

(** zod's e-mail test, and its message for a value of the wrong type (a
    missing key included). *)
Variable is_email : string -> bool.
Variable invalid_type_message : value -> string.

(** [prisma.user.findUnique({ where: { email, password } })] on the database
    behind a connection string. *)
Variable user_findUnique : Ext -> string -> string -> string -> completion (option User).

(** [z.string().email(msg)] and [z.string().min(6, msg)] on the value found
    under a key. *)
Definition check_email (v : value) : list zod_issue :=
  match v with
  | VStr s => if is_email s then [] else [Issue ["email"] "Invalid email address"]
  | other => [Issue ["email"] (invalid_type_message other)]
  end.

Definition check_password (v : value) : list zod_issue :=
  match v with
  | VStr s =>
      if (6 <=? Z.of_nat (js_length s))%Z then []
      else [Issue ["password"] "Password should have at least 6 characters."]
  | other => [Issue ["password"] (invalid_type_message other)]
  end.

(** [userSigninSchema.parse(data)] *)
Definition userSigninSchema_parse (data : value) : completion (string * string) :=
  match data with
  | VObj fields =>
      let email := lookup_field "email" fields in
      let password := lookup_field "password" fields in
      match check_email email ++ check_password password, email, password with
      | [], VStr e, VStr p => Normal (e, p)
      | issues, _, _ => Thrown (ZodError issues)
      end
  | other => Thrown (ZodError [Issue [] (invalid_type_message other)])
  end.

Definition call_sign (payload : value) (secret : string) : M Ext string :=
  (emit (EvSign payload secret) ;; await (sign payload secret))%js.

(** The payload the handler builds from the row it found. *)
Definition payload_of (user : User) : value :=
  VObj [("id", VNum (user_id user));
        ("email", VStr (user_email user));
        ("password", VStr (user_password user))].

Definition signin : M Ext Response :=
  try_catch
    (let* c := get_world in
     let prisma := prismaClient (DATABASE_URL (env c)) in
     let* data := await (req_json (request c)) in
     let* credentials := await (userSigninSchema_parse data) in
     let email := fst credentials in
     let password := snd credentials in
     let* user := await (user_findUnique (ext c) prisma email password) in
     match user with
     | Some user =>
         let payload := payload_of user in
         let secret := "BLOG_SECRET" in
         let* token := call_sign payload secret in
         ret (c_json (VObj [("message", VStr "Sign in successful");
                            ("user", user_json user);
                            ("token", VStr token)]) 200)
     | None =>
         ret (c_json (VObj [("message", VStr "Invalid email or password")]) 400)
     end)%js
    (fun error =>
       (console_error error ;;
        match error with
        | ZodError issues => ret (c_json (VObj [("message", issues_json issues)]) 400)
        | _ => ret (c_json (VObj [("message", VStr "Internal server error")]) 500)
        end)%js).

End Handler.
End Signin.

(** [c.get('user')?.id], the read the protected handlers start with. *)
Definition userId {Ext} (c : World Ext) : value := opt_chain (c_get c "user") "id".

(** ** The token codec *)

(** [s.split(sep)] for a one-character separator. *)
Fixpoint split_on (sep : ascii) (s : string) : list string :=
  match s with
  | EmptyString => [EmptyString]
  | String c rest =>
      if Ascii.eqb c sep then EmptyString :: split_on sep rest
      else
        match split_on sep rest with
        | seg :: segs => String c seg :: segs
        | [] => [String c EmptyString]
        end
  end.

(** Does character [c] occur in [s]? *)
Fixpoint occurs (c : ascii) (s : string) : bool :=
  match s with
  | EmptyString => false
  | String d rest => Ascii.eqb d c || occurs c rest
  end.

(** A claim as the round-trip property takes it: a mapping (no key twice)
    whose values are strings and numbers. *)
Definition is_scalar (v : value) : bool :=
  match v with
  | VStr _ | VNum _ => true
  | _ => false
  end.

Definition scalar_claim (c : value) : Prop :=
  match c with
  | VObj fields => NoDup (map fst fields) /\ Forall (fun kv => is_scalar (snd kv) = true) fields
  | _ => False
  end.

Module TokenCodec.
Section Codec.

(** The format of a token is opaque to the service.  What the
    specification fixes is that a token is three dot-separated segments,
    that it carries the claim and a signature under the secret, and how
    [verify] fails.  The encoding of the claim and the signature function
    are therefore parameters. *)
Variable header_segment : string.
Variable encode_claim : value -> string.
Variable decode_claim : string -> option value.
Variable signature : string -> string -> string.   (* secret, signed bytes *)

(** Modelled from the spec: [sign] of the token codec (hono/jwt, a
    dependency whose code is not part of the sources).  "sign(claim, secret)
    -> token: deterministic-format signed token": the header segment, the
    encoded claim and the signature over the claim bytes, joined by dots. *)
Definition sign (claim : value) (secret : string) : completion string :=
  let claim_segment := encode_claim claim in
  Normal (header_segment +:+ "." +:+ claim_segment +:+ "." +:+ signature secret claim_segment).

(** Modelled from the spec: [verify] of the token codec (hono/jwt, a
    dependency whose code is not part of the sources).  "recomputes the
    signature over the claim using secret and succeeds only if it matches;
    fails with InvalidSignature on mismatch and Malformed if the token
    cannot be parsed"; a token that is not three dot-separated segments
    cannot be parsed. *)
Definition verify (token secret : string) : completion value :=
  match split_on "." token with
  | [_; claim_segment; signature_segment] =>
      match decode_claim claim_segment with
      | Some claim =>
          if String.eqb signature_segment (signature secret claim_segment)
          then Normal claim
          else Thrown (JwtError InvalidSignature)
      | None => Thrown (JwtError Malformed)
      end
  | _ => Thrown (JwtError Malformed)
  end.

End Codec.
End TokenCodec.

(** ** A reference codec

    One concrete codec that fits the interface above, so that the
    assumptions made about codecs are seen to be satisfiable and the
    properties can be run on concrete requests.  Claims are written field by
    field with every string in hexadecimal, so that the separators never
    occur inside a field. *)

Module RefCodec.

Definition hex_digit (n : N) : ascii :=
  if (n <? 10)%N then ascii_of_N (48 + n) else ascii_of_N (87 + n).

Definition hex_value (c : ascii) : option N :=
  let n := N_of_ascii c in
  if (48 <=? n)%N && (n <=? 57)%N then Some (n - 48)%N
  else if (97 <=? n)%N && (n <=? 102)%N then Some (n - 87)%N
  else None.

Definition hex_byte (c : ascii) : string :=
  let n := N_of_ascii c in
  String (hex_digit (n / 16)) (String (hex_digit (n mod 16)) EmptyString).

Fixpoint hex (s : string) : string :=
  match s with
  | EmptyString => EmptyString
  | String c rest => hex_byte c +:+ hex rest
  end.

Fixpoint unhex (s : string) : option string :=
  match s with
  | EmptyString => Some EmptyString
  | String a (String b rest) =>
      match hex_value a, hex_value b, unhex rest with
      | Some hi, Some lo, Some tail => Some (String (ascii_of_N (16 * hi + lo)) tail)
      | _, _, _ => None
      end
  | String _ EmptyString => None
  end.

Definition encode_number (n : Z) : string := NilZero.string_of_int (Z.to_int n).

Definition decode_number (s : string) : option Z :=
  match NilZero.int_of_string s with
  | Some d => Some (Z.of_int d)
  | None => None
  end.

Definition encode_scalar (v : value) : string :=
  match v with
  | VStr s => String "s" (hex s)
  | VNum n => String "n" (hex (encode_number n))
  | _ => "x"
  end.

Definition parse_scalar (s : string) : option value :=
  match s with
  | String "s" rest =>
      match unhex rest with
      | Some str => Some (VStr str)
      | None => None
      end
  | String "n" rest =>
      match unhex rest with
      | Some digits =>
          match decode_number digits with
          | Some n => Some (VNum n)
          | None => None
          end
      | None => None
      end
  | _ => None
  end.

Definition encode_field (kv : string * value) : string :=
  hex (fst kv) +:+ ":" +:+ encode_scalar (snd kv).

Definition parse_field (seg : string) : option (string * value) :=
  match split_on ":" seg with
  | [hk; sv] =>
      match unhex hk, parse_scalar sv with
      | Some k, Some v => Some (k, v)
      | _, _ => None
      end
  | _ => None
  end.

Fixpoint encode_fields (fields : list (string * value)) : string :=
  match fields with
  | [] => EmptyString
  | kv :: rest => encode_field kv +:+ ";" +:+ encode_fields rest
  end.

Fixpoint parse_fields (segs : list string) : option (list (string * value)) :=
  match segs with
  | [] => None
  | [last] => if String.eqb last "" then Some [] else None
  | seg :: rest =>
      match parse_field seg, parse_fields rest with
      | Some kv, Some kvs => Some (kv :: kvs)
      | _, _ => None
      end
  end.

Definition serialize (c : value) : string :=
  match c with
  | VObj fields => encode_fields fields
  | _ => "!"
  end.

Definition parse (s : string) : option value :=
  match parse_fields (split_on ";" s) with
  | Some fields => Some (VObj fields)
  | None => None
  end.

Definition header_segment : string := "blog".

Definition encode_claim (c : value) : string := hex (serialize c).

Definition decode_claim (seg : string) : option value :=
  match unhex seg with
  | Some s => parse s
  | None => None
  end.

(** A keyed tag that tells secrets and messages apart.  It stands in for a
    message authentication code in runs of the model; it hides nothing. *)
Definition signature (secret bytes : string) : string := hex bytes +:+ hex secret.

Definition sign : value -> string -> completion string :=
  TokenCodec.sign header_segment encode_claim signature.

Definition verify : string -> string -> completion value :=
  TokenCodec.verify decode_claim signature.

End RefCodec.

(** ** A codec that pads its key

    The reference codec with another keyed tag: as HMAC does with a key
    shorter than its block, the tag first pads the secret with zero bytes
    to 64 bytes.  Secrets that differ in trailing zero bytes only sign
    alike. *)

Module PaddedKeyCodec.

Fixpoint zeros (n : nat) : string :=
  match n with
  | O => EmptyString
  | S n' => String "000" (zeros n')
  end.

Definition block_size : nat := 64.

Definition pad_key (secret : string) : string :=
  secret +:+ zeros (block_size - String.length secret).

Definition signature (secret bytes : string) : string :=
  RefCodec.hex bytes +:+ RefCodec.hex (pad_key secret).

Definition sign : value -> string -> completion string :=
  TokenCodec.sign RefCodec.header_segment RefCodec.encode_claim signature.

Definition verify : string -> string -> completion value :=
  TokenCodec.verify RefCodec.decode_claim signature.

(** The gate's secret followed by one zero byte. *)
Definition padded_secret : string := "BLOG_SECRET" +:+ zeros 1.

End PaddedKeyCodec.

(** ** [src/index.ts]: the other routes *)

(** A row of the blogs table. *)
Record Blog : Type := mkBlog {
  blog_id : Z;
  blog_title : string;
  blog_body : string;
  blog_tags : list string;
  blog_userId : Z
}.

Definition blog_json (b : Blog) : value :=
  VObj [("id", VNum (blog_id b));
        ("title", VStr (blog_title b));
        ("body", VStr (blog_body b));
        ("tags", VArr (map VStr (blog_tags b)));
        ("userId", VNum (blog_userId b))].

(** A row under [select: { id, title, body, tags }]. *)
Definition blog_selected_json (b : Blog) : value :=
  VObj [("id", VNum (blog_id b));
        ("title", VStr (blog_title b));
        ("body", VStr (blog_body b));
        ("tags", VArr (map VStr (blog_tags b)))].

(** A row or [null]. *)
Definition nullable_blog_json (b : option Blog) : value :=
  match b with
  | Some row => blog_json row
  | None => VNull
  end.

(** The numbers [Number(...)] yields: [NaN] or, as for [value], an
    integer. *)
Inductive number : Type :=
| NaN
| Num (n : Z).

(** [!id] is [negb (number_truthy id)]. *)
Definition number_truthy (n : number) : bool :=
  match n with
  | NaN => false
  | Num z => negb (z =? 0)
  end.

Definition allowedTags : list string :=
  ["Tech Trends";
   "Productivity Tips";
   "Lifestyle Hacks";
   "Travel Adventures";
   "Health & Wellness";
   "Personal Development";
   "Creative Writing";
   "Sustainable Living";
   "Finance Tips";
   "Entrepreneurship"].

(** Is the value one of the strings of [z.enum(allowedTags)]? *)
Definition is_allowed_tag (v : value) : bool :=
  match v with
  | VStr s => existsb (String.eqb s) allowedTags
  | _ => false
  end.

(** The strings of an array of strings. *)
Fixpoint tag_strings (items : list value) : list string :=
  match items with
  | [] => []
  | VStr s :: rest => s :: tag_strings rest
  | _ :: rest => tag_strings rest
  end.

(** The [catch] block shared by the handlers that tell a validation error
    from the rest. *)
Definition error_reply (error : error) : Response :=
  match error with
  | ZodError issues => c_json (VObj [("message", issues_json issues)]) 400
  | _ => c_json (VObj [("message", VStr "Internal server error")]) 500
  end.

Definition internal_server_error : Response :=
  c_json (VObj [("message", VStr "Internal server error")]) 500.

Definition user_id_required : Response :=
  c_json (VObj [("message", VStr "User ID is required")]) 400.

Section DatabaseAccess.

Context {Ext : Type}.

(** A query: it reads the database and may reject. *)
Definition db_read {A} (query : Ext -> completion A) : M Ext A :=
  fun w => ([], w, query (ext w)).

(** A statement: it may change the database and may reject. *)
Definition db_write {A} (statement : Ext -> Ext * completion A) : M Ext A :=
  fun w =>
    match statement (ext w) with
    | (db, r) => ([], mkWorld (request w) (env w) (vars w) db, r)
    end.

(** [c.env.DATABASE_URL] *)
Definition database_url : M Ext string :=
  fun w => ([], w, Normal (DATABASE_URL (env w))).

(** [await c.req.json()] *)
Definition req_json_body : M Ext value :=
  fun w => ([], w, req_json (request w)).

(** [c.get('user')?.id] *)
Definition get_userId : M Ext value :=
  fun w => ([], w, Normal (userId w)).

End DatabaseAccess.

Module Routes.
Section Handlers.

Context {Ext : Type}.

(** zod: the e-mail test, the message for a value of the wrong type, and
    the issue for element [i] of [tags] when it is not one of the allowed
    strings. *)
Variable is_email : string -> bool.
Variable invalid_type_message : value -> string.
Variable invalid_tag_issue : nat -> value -> zod_issue.

(** [Number(x)] for [x] a string or [undefined]. *)
Variable Number : option string -> number.

(** prisma, on the database behind a connection string. *)
Variable user_findFirst : Ext -> string -> string -> string -> completion (option User).
Variable user_create : Ext -> string -> string -> string -> string -> Ext * completion User.
Variable blog_create :
  Ext -> string -> string -> string -> list string -> value -> Ext * completion Blog.
Variable blog_findMany_select : Ext -> string -> completion (list Blog).
Variable blog_findMany_where : Ext -> string -> value -> completion (list Blog).
Variable blog_findUnique : Ext -> string -> number -> completion (option Blog).
Variable blog_update :
  Ext -> string -> value -> number -> string -> string -> list string -> Ext * completion Blog.
Variable blog_delete : Ext -> string -> number -> value -> Ext * completion Blog.

(** [z.string().min(3, msg)] under [username]. *)
Definition check_username (v : value) : list zod_issue :=
  match v with
  | VStr s =>
      if (3 <=? Z.of_nat (js_length s))%Z then []
      else [Issue ["username"] "Username should have at least 3 characters"]
  | other => [Issue ["username"] (invalid_type_message other)]
  end.

(** [userSignupSchema.parse(data)] *)
Definition userSignupSchema_parse (data : value) : completion (string * string * string) :=
  match data with
  | VObj fields =>
      let username := lookup_field "username" fields in
      let email := lookup_field "email" fields in
      let password := lookup_field "password" fields in
      match check_username username
              ++ Signin.check_email is_email invalid_type_message email
              ++ Signin.check_password invalid_type_message password,
            username, email, password with
      | [], VStr u, VStr e, VStr p => Normal (u, e, p)
      | issues, _, _, _ => Thrown (ZodError issues)
      end
  | other => Thrown (ZodError [Issue [] (invalid_type_message other)])
  end.

(** [z.string().min(3, msg)] under [title], [z.string().min(10, msg)] under
    [body]. *)
Definition check_title (v : value) : list zod_issue :=
  match v with
  | VStr s =>
      if (3 <=? Z.of_nat (js_length s))%Z then []
      else [Issue ["title"] "Title should have at least 3 characters"]
  | other => [Issue ["title"] (invalid_type_message other)]
  end.

Definition check_body (message : string) (v : value) : list zod_issue :=
  match v with
  | VStr s =>
      if (10 <=? Z.of_nat (js_length s))%Z then []
      else [Issue ["body"] message]
  | other => [Issue ["body"] (invalid_type_message other)]
  end.

(** The issues of the elements of [tags], from index [i] on. *)
Fixpoint tag_issues (i : nat) (items : list value) : list zod_issue :=
  match items with
  | [] => []
  | item :: rest =>
      (if is_allowed_tag item then [] else [invalid_tag_issue i item])
        ++ tag_issues (S i) rest
  end.

(** [z.array(z.enum(allowedTags)).max(10, msg)] under [tags]: the length is
    tested first, then every element. *)
Definition check_tags (v : value) : list zod_issue :=
  match v with
  | VArr items =>
      (if (Z.of_nat (length items) <=? 10)%Z then []
       else [Issue ["tags"] "You can only choose up to 10 tags."])
        ++ tag_issues 0 items
  | other => [Issue ["tags"] (invalid_type_message other)]
  end.

(** The two blog schemas differ in the message for a short body only. *)
Definition blog_schema_parse (body_message : string) (data : value)
    : completion (string * string * list string) :=
  match data with
  | VObj fields =>
      let title := lookup_field "title" fields in
      let body := lookup_field "body" fields in
      let tags := lookup_field "tags" fields in
      match check_title title ++ check_body body_message body ++ check_tags tags,
            title, body, tags with
      | [], VStr t, VStr b, VArr items => Normal (t, b, tag_strings items)
      | issues, _, _, _ => Thrown (ZodError issues)
      end
  | other => Thrown (ZodError [Issue [] (invalid_type_message other)])
  end.

(** [blogPostSchema.parse(data)] *)
Definition blogPostSchema_parse : value -> completion (string * string * list string) :=
  blog_schema_parse "Body should have at least 10 characters".

(** [blogUpdateSchema.parse(data)] *)
Definition blogUpdateSchema_parse : value -> completion (string * string * list string) :=
  blog_schema_parse "Body should have atleast 10 characters".

(** [POST /users/signup] *)
Definition signup : M Ext Response :=
  try_catch
    (let* url := database_url in
     let prisma := prismaClient url in
     let* data := req_json_body in
     let* fields := await (userSignupSchema_parse data) in
     let username := fst (fst fields) in
     let email := snd (fst fields) in
     let password := snd fields in
     let* existingUser := db_read (fun db => user_findFirst db prisma email username) in
     match existingUser with
     | Some _ =>
         ret (c_json (VObj [("message", VStr "Email or username already exists")]) 400)
     | None =>
         let* newUser :=
           db_write (fun db => user_create db prisma username email password) in
         ret (c_json (VObj [("message", VStr "User created successfully");
                            ("user", user_json newUser)]) 201)
     end)%js
    (fun error => (console_error error ;; ret (error_reply error))%js).

(** [POST /posts], behind the gate *)
Definition create_post : M Ext Response :=
  try_catch
    (let* url := database_url in
     let prisma := prismaClient url in
     let* data := req_json_body in
     let* fields := await (blogPostSchema_parse data) in
     let title := fst (fst fields) in
     let body := snd (fst fields) in
     let tags := snd fields in
     let* userId := get_userId in
     if negb (truthy userId) then ret user_id_required
     else
       let* newBlog := db_write (fun db => blog_create db prisma title body tags userId) in
       ret (c_json (VObj [("message", VStr "Blog created successfully");
                          ("userId", userId)]) 200))%js
    (fun error => (console_error error ;; ret (error_reply error))%js).

(** [GET /posts] *)
Definition get_posts : M Ext Response :=
  try_catch
    (let* url := database_url in
     let prisma := prismaClient url in
     let* blogs := db_read (fun db => blog_findMany_select db prisma) in
     ret (c_json (VObj [("message", VStr "Blog fetched successfully");
                        ("blog", VArr (map blog_selected_json blogs))]) 200))%js
    (fun error => ret internal_server_error).

(** [GET /myposts], behind the gate *)
Definition my_posts : M Ext Response :=
  try_catch
    (let* url := database_url in
     let prisma := prismaClient url in
     let* data := req_json_body in
     let* userId := get_userId in
     if negb (truthy userId) then ret user_id_required
     else
       let* blog := db_read (fun db => blog_findMany_where db prisma userId) in
       ret (c_json (VObj [("message", VStr "Blog fetched successfully");
                          ("todo", VArr (map blog_json blog))]) 200))%js
    (fun error => (console_error error ;; ret (error_reply error))%js).

(** [GET /posts/:id]; [param] is [c.req.param]. *)
Definition get_post (param : string -> option string) : M Ext Response :=
  try_catch
    (let* url := database_url in
     let prisma := prismaClient url in
     let id := Number (param "id") in
     if negb (number_truthy id) then
       ret (c_json (VObj [("message", VStr "Blog id is required")]) 400)
     else
       let* blog := db_read (fun db => blog_findUnique db prisma id) in
       ret (c_json (VObj [("message", VStr "Blog fetched successfully");
                          ("todo", nullable_blog_json blog)]) 200))%js
    (fun error => ret internal_server_error).

(** [PUT /posts/:id], behind the gate *)
Definition update_post (param : string -> option string) : M Ext Response :=
  try_catch
    (let* url := database_url in
     let prisma := prismaClient url in
     let* data := req_json_body in
     let* fields := await (blogPostSchema_parse data) in
     let title := fst (fst fields) in
     let body := snd (fst fields) in
     let tags := snd fields in
     let* userId := get_userId in
     let id := Number (param "id") in
     if negb (truthy userId) then ret user_id_required
     else
       let* updatedTodo :=
         db_write (fun db => blog_update db prisma userId id title body tags) in
       ret (c_json (VObj [("message", VStr "Blog updated successfully");
                          ("todo", data)]) 200))%js
    (fun error => (console_error error ;; ret (error_reply error))%js).

(** [DELETE /posts/:id], behind the gate *)
Definition delete_post (param : string -> option string) : M Ext Response :=
  try_catch
    (let* url := database_url in
     let prisma := prismaClient url in
     let* userId := get_userId in
     let id := Number (param "id") in
     if negb (truthy userId) then ret user_id_required
     else
       let* deletedPost := db_write (fun db => blog_delete db prisma id userId) in
       ret (c_json (VObj [("message", VStr "Blog deleted successfully");
                          ("todo", blog_json deletedPost)]) 200))%js
    (fun error => ret internal_server_error).

End Handlers.
End Routes.

(** [app.post(path, authMiddleware, handler)]: what the gate calls as
    [next] when [handler] is the last of the chain.  The response of the
    handler becomes the response of the request; the gate sees whether the
    handler completed. *)
Definition as_next {Ext} (handler : M Ext Response)
    : World Ext -> World Ext * completion unit :=
  fun w =>
    match handler w with
    | (_, w', Normal _) => (w', Normal tt)
    | (_, w', Thrown e) => (w', Thrown e)
    end.

(** ** Header values *)





(** ** Reading a run *)

Definition events {Ext A} (run : list event * World Ext * completion A) : list event :=
  fst (fst run).
Definition world_after {Ext A} (run : list event * World Ext * completion A) : World Ext :=
  snd (fst run).
Definition outcome {Ext A} (run : list event * World Ext * completion A) : completion A :=
  snd run.


(** The success path of the gate: the header passes, [verify] returns
    [decoded] for the token it carries, and [decoded] is truthy. *)
Definition accepted {Ext} (verify : string -> string -> completion value)
    (w : World Ext) (decoded : value) : Prop :=
  exists h,
    req_header (request w) "Authorization" = Some h /\
    startsWith h "Bearer " = true /\
    verify (slice h 7) "BLOG_SECRET" = Normal decoded /\
    truthy decoded = true.


(** The JSON body of the response a run completed with. *)
Definition outcome_body {Ext} (run : list event * World Ext * completion Response) : value :=
  match outcome run with
  | Normal r => match body r with JsonBody v => v | TextBody _ => VUndefined end
  | Thrown _ => VUndefined
  end.

(** A handler answers and keeps the context when no exception escapes it
    and the request, the bindings and the context variables are as before. *)
Definition answers_and_keeps_context {Ext} (handler : M Ext Response) : Prop :=
  forall w, exists r,
    outcome (handler w) = Normal r /\
    request (world_after (handler w)) = request w /\
    env (world_after (handler w)) = env w /\
    vars (world_after (handler w)) = vars w.

(** ** Sample requests *)

(** A request that carries at most an [Authorization] header, in a world
    with no context variables yet. *)
Definition world_with_header (h : option string) : World unit :=
  mkWorld
    (mkRequest (fun name => if String.eqb name "Authorization" then h else None)
               (Thrown (OtherError "Unexpected end of JSON input")))
    (mkEnv "prisma://db" None) ∅ tt.

(** A handler chain that does nothing. *)
Definition next_done (w : World unit) : World unit * completion unit := (w, Normal tt).

Definition sample_claim : value := VObj [("id", VNum 1); ("email", VStr "a@b.com")].

Definition token_for (claim : value) (secret : string) : string :=
  match RefCodec.sign claim secret with
  | Normal token => token
  | Thrown _ => ""
  end.

(** The sample claim signed by the padded-key codec with the gate's secret
    plus a zero byte. *)
Definition padded_token : string :=
  match PaddedKeyCodec.sign sample_claim PaddedKeyCodec.padded_secret with
  | Normal token => token
  | Thrown _ => ""
  end.

(** A codec whose [verify] accepts anything and returns the number zero. *)
Definition verify_zero (token secret : string) : completion value := Normal (VNum 0).

(** A one-row users table, searched the way the signin query does. *)
Definition sample_user : User := mkUser 1 "alice" "a@b.com" "hunter22".

Definition find_user (db : list User) (url email password : string)
    : completion (option User) :=
  Normal (List.find (fun u => String.eqb (user_email u) email &&
                              String.eqb (user_password u) password) db).

Definition has_at_sign (s : string) : bool := occurs "@" s.

Definition type_message (v : value) : string :=
  match v with
  | VUndefined => "Required"
  | _ => "Expected string"
  end.

Definition signin_world : World (list User) :=
  mkWorld
    (mkRequest (fun _ => None)
               (Normal (VObj [("email", VStr "a@b.com"); ("password", VStr "hunter22")])))
    (mkEnv "prisma://db" None) ∅ [sample_user].

Definition protected_world (token : string) : World (list User) :=
  mkWorld
    (mkRequest (fun name => if String.eqb name "Authorization"
                            then Some ("Bearer " +:+ token) else None)
               (Thrown (OtherError "Unexpected end of JSON input")))
    (mkEnv "prisma://db" None) ∅ [sample_user].

Definition next_keep (w : World (list User)) : World (list User) * completion unit :=
  (w, Normal tt).

(** ** A sample database *)

(** Two tables and the statements the routes issue, on lists.  It stands
    in for the database in runs of the handlers. *)
Record Db : Type := mkDb { db_users : list User; db_blogs : list Blog }.

Definition sample_findFirst (db : Db) (url email username : string)
    : completion (option User) :=
  Normal (List.find (fun u => String.eqb (user_email u) email ||
                              String.eqb (user_username u) username) (db_users db)).

Definition sample_findUnique_user (db : Db) (url email password : string)
    : completion (option User) :=
  find_user (db_users db) url email password.

Definition sample_user_create (db : Db) (url username email password : string)
    : Db * completion User :=
  let row := mkUser (Z.of_nat (S (length (db_users db)))) username email password in
  (mkDb (db_users db ++ [row]) (db_blogs db), Normal row).

Definition sample_blog_create (db : Db) (url title body : string) (tags : list string)
    (userId : value) : Db * completion Blog :=
  match userId with
  | VNum n =>
      let row := mkBlog (Z.of_nat (S (length (db_blogs db)))) title body tags n in
      (mkDb (db_users db) (db_blogs db ++ [row]), Normal row)
  | _ => (db, Thrown (OtherError "Invalid value for userId"))
  end.

Definition sample_findMany_where (db : Db) (url : string) (userId : value)
    : completion (list Blog) :=
  match userId with
  | VNum n => Normal (List.filter (fun b => blog_userId b =? n) (db_blogs db))
  | _ => Thrown (OtherError "Invalid value for userId")
  end.

Definition sample_findUnique (db : Db) (url : string) (id : number)
    : completion (option Blog) :=
  match id with
  | Num n => Normal (List.find (fun b => blog_id b =? n) (db_blogs db))
  | NaN => Thrown (OtherError "Invalid value for id")
  end.

Definition is_post (id userId : Z) (b : Blog) : bool :=
  (blog_id b =? id) && (blog_userId b =? userId).

Definition sample_blog_update (db : Db) (url : string) (userId : value) (id : number)
    (title body : string) (tags : list string) : Db * completion Blog :=
  match userId, id with
  | VNum uid, Num n =>
      match List.find (is_post n uid) (db_blogs db) with
      | Some _ =>
          let row := mkBlog n title body tags uid in
          (mkDb (db_users db)
                (map (fun b => if is_post n uid b then row else b) (db_blogs db)),
           Normal row)
      | None => (db, Thrown (OtherError "Record to update not found"))
      end
  | _, _ => (db, Thrown (OtherError "Invalid where clause"))
  end.

Definition sample_blog_delete (db : Db) (url : string) (id : number) (userId : value)
    : Db * completion Blog :=
  match userId, id with
  | VNum uid, Num n =>
      match List.find (is_post n uid) (db_blogs db) with
      | Some row =>
          (mkDb (db_users db)
                (List.filter (fun b => negb (is_post n uid b)) (db_blogs db)),
           Normal row)
      | None => (db, Thrown (OtherError "Record to delete does not exist"))
      end
  | _, _ => (db, Thrown (OtherError "Invalid where clause"))
  end.

(** [Number] on decimal integers; anything else is [NaN] here. *)
Definition sample_Number (text : option string) : number :=
  match text with
  | Some digits =>
      match RefCodec.decode_number digits with
      | Some n => Num n
      | None => NaN
      end
  | None => NaN
  end.

Definition sample_tag_issue (i : nat) (item : value) : zod_issue :=
  Issue ["tags"] "Invalid enum value".

Definition sample_post : Blog := mkBlog 1 "Hello" "A first post." ["Tech Trends"] 1.

Definition sample_db : Db := mkDb [sample_user] [sample_post].

(** A request to the API: its [Authorization] header, the outcome of
    reading its JSON body, and what the gate left under [user]. *)
Definition api_world (authorization : option string) (json : completion value)
    (user : option value) : World Db :=
  mkWorld
    (mkRequest (fun name => if String.eqb name "Authorization" then authorization else None)
               json)
    (mkEnv "prisma://db" None)
    (match user with
     | Some claim => {["user" := claim]}
     | None => ∅
     end)
    sample_db.

Definition no_json : completion value :=
  Thrown (OtherError "Unexpected end of JSON input").

Definition sample_post_body : value :=
  VObj [("title", VStr "Second"); ("body", VStr "Another post, longer.");
        ("tags", VArr [VStr "Tech Trends"; VStr "Finance Tips"]);
        ("draft", VBool true)].

Definition sample_signup_body : value :=
  VObj [("username", VStr "bob"); ("email", VStr "bob@b.com"); ("password", VStr "s3cret!")].

Definition path_id (id : string) (name : string) : option string :=
  if String.eqb name "id" then Some id else None.

(** A handler chain that rejects. *)
Definition next_rejects (w : World unit) : World unit * completion unit :=
  (w, Thrown (OtherError "boom")).

(** A codec whose [verify] accepts anything and returns the empty object. *)
Definition verify_empty_object (token secret : string) : completion value :=
  Normal (VObj []).

Definition claim_of_alice : value := Signin.payload_of sample_user.

Definition alice_token : string := token_for claim_of_alice "BLOG_SECRET".

(** * Properties *)

(** ** Strings *)

Lemma append_nil_l (s : string) : "" +:+ s = s.
Proof. reflexivity. Qed.

Lemma append_cons (c : ascii) (p s : string) : String c p +:+ s = String c (p +:+ s).
Proof. reflexivity. Qed.

Lemma startsWith_app (p s : string) : startsWith (p +:+ s) p = true.
Proof.
  induction p as [|c p IH]; [reflexivity|].
  rewrite append_cons. simpl. rewrite Ascii.eqb_refl. exact IH.
Qed.

Lemma startsWith_split (p s : string) :
  startsWith s p = true -> s = p +:+ slice s (String.length p).
Proof.
  revert s. induction p as [|c p IH]; intros s H; [reflexivity|].
  destruct s as [|d s]; [discriminate|].
  simpl in H. apply andb_prop in H as [Hc Hs].
  apply Ascii.eqb_eq in Hc. subst d.
  rewrite append_cons. simpl. f_equal. apply IH, Hs.
Qed.

Lemma slice_app (p s : string) : slice (p +:+ s) (String.length p) = s.
Proof.
  induction p as [|c p IH]; [reflexivity|].
  rewrite append_cons. simpl. exact IH.
Qed.

Lemma startsWith_nonempty (s : string) :
  startsWith s "Bearer " = true -> truthy (VStr s) = true.
Proof. destruct s; [discriminate | reflexivity]. Qed.

Example slice_bearer : slice "Bearer abc.def.ghi" 7 = "abc.def.ghi".
Proof. reflexivity. Qed.

Example slice_short : slice "Bear" 7 = "".
Proof. reflexivity. Qed.

Example startsWith_is_case_sensitive : startsWith "bearer abc" "Bearer " = false.
Proof. reflexivity. Qed.

Example startsWith_needs_the_space : startsWith "Bearer" "Bearer " = false.
Proof. reflexivity. Qed.

Example split_on_dots : split_on "." "a.b..c" = ["a"; "b"; ""; "c"].
Proof. reflexivity. Qed.

Example split_on_empty : split_on "." "" = [""].
Proof. reflexivity. Qed.

Example js_length_ascii : js_length "hunter22" = 8%nat.
Proof. reflexivity. Qed.

Example js_length_basic_plane : js_length "日本語" = 3%nat.
Proof. reflexivity. Qed.

Example js_length_surrogate_pair : js_length "😀" = 2%nat.
Proof. reflexivity. Qed.

Example short_password_in_many_bytes :
  Signin.check_password (fun _ => "Required") (VStr "日本語")
    = [Issue ["password"] "Password should have at least 6 characters."].
Proof. reflexivity. Qed.

(** ** The four ways through the gate *)

Section GatePaths.

Context {Ext : Type}.
Variable verify : string -> string -> completion value.
Variable next : World Ext -> World Ext * completion unit.

Abbreviation gate := (Middleware.authMiddleware verify next).

Lemma header_accepted (h : string) :
  startsWith h "Bearer " = true -> Middleware.header_rejected (Some h) = false.
Proof.
  intros H. unfold Middleware.header_rejected.
  rewrite (startsWith_nonempty _ H), H. reflexivity.
Qed.

Lemma header_rejected_cases (o : option string) :
  Middleware.header_rejected o = true <->
  o = None \/ exists h, o = Some h /\ startsWith h "Bearer " = false.
Proof.
  split.
  - destruct o as [h|]; [|now left]. intros H. right. exists h. split; [reflexivity|].
    destruct (startsWith h "Bearer ") eqn:E; [|reflexivity].
    rewrite (header_accepted _ E) in H. discriminate.
  - intros [-> | (h & -> & H)]; [reflexivity|].
    unfold Middleware.header_rejected. rewrite H. apply orb_true_r.
Qed.

Lemma gate_denied (w : World Ext) :
  Middleware.header_rejected (req_header (request w) "Authorization") = true ->
  gate w = ([], w, Normal (Some Middleware.access_denied)).
Proof.
  intros H. unfold Middleware.authMiddleware, try_catch, bind, header, ret.
  rewrite H. reflexivity.
Qed.

Lemma gate_verify_throws (w : World Ext) (e : error) :
  Middleware.header_rejected (req_header (request w) "Authorization") = false ->
  verify (Middleware.token_of (req_header (request w) "Authorization")) "BLOG_SECRET" = Thrown e ->
  gate w = ([EvVerify (Middleware.token_of (req_header (request w) "Authorization")) "BLOG_SECRET"; EvLog e],
            w, Normal (Some Middleware.invalid_token)).
Proof.
  intros H Hv.
  unfold Middleware.authMiddleware, Middleware.call_verify, try_catch, bind, header,
    console_error, emit, await, ret.
  rewrite H, Hv. reflexivity.
Qed.

Lemma gate_verify_falsy (w : World Ext) (d : value) :
  Middleware.header_rejected (req_header (request w) "Authorization") = false ->
  verify (Middleware.token_of (req_header (request w) "Authorization")) "BLOG_SECRET" = Normal d ->
  truthy d = false ->
  gate w = ([EvVerify (Middleware.token_of (req_header (request w) "Authorization")) "BLOG_SECRET"],
            w, Normal (Some Middleware.unauthorized_user)).
Proof.
  intros H Hv Ht.
  unfold Middleware.authMiddleware, Middleware.call_verify, try_catch, bind, header,
    emit, await, ret.
  rewrite H, Hv, Ht. reflexivity.
Qed.

Lemma gate_verify_truthy (w : World Ext) (d : value) :
  Middleware.header_rejected (req_header (request w) "Authorization") = false ->
  verify (Middleware.token_of (req_header (request w) "Authorization")) "BLOG_SECRET" = Normal d ->
  truthy d = true ->
  gate w =
    let token := Middleware.token_of (req_header (request w) "Authorization") in
    match next (set_var "user" d w) with
    | (w', Normal _) =>
        ([EvVerify token "BLOG_SECRET"; EvSet "user" d; EvNext], w', Normal None)
    | (w', Thrown e) =>
        ([EvVerify token "BLOG_SECRET"; EvSet "user" d; EvNext; EvLog e], w',
         Normal (Some Middleware.invalid_token))
    end.
Proof.
  intros H Hv Ht.
  unfold Middleware.authMiddleware, Middleware.call_verify, Middleware.call_next,
    try_catch, bind, header, console_error, c_set, emit, await, ret.
  rewrite H, Hv, Ht. simpl.
  destruct (next (set_var "user" d w)) as [w' [[]|e]]; reflexivity.
Qed.

End GatePaths.

(** ** The gate, outcome by outcome *)

Section GateProperties.

Context {Ext : Type}.
Variable verify : string -> string -> completion value.
Variable next : World Ext -> World Ext * completion unit.

Abbreviation gate := (Middleware.authMiddleware verify next).

(** C1. A request without an [Authorization] header, or with one that does
    not start with ["Bearer "], is answered 401 with the JSON body
    [{message: "Access Denied. No token provided."}]; the gate neither calls
    [verify] nor the next handler, and leaves the world as it found it. *)
Theorem missing_or_foreign_header_is_denied (w : World Ext) :
  req_header (request w) "Authorization" = None \/
  (exists h, req_header (request w) "Authorization" = Some h /\ startsWith h "Bearer " = false) ->
  outcome (gate w) =
    Normal (Some (mkResponse 401
      (JsonBody (VObj [("message", VStr "Access Denied. No token provided.")])))) /\
  (forall token secret, EvVerify token secret ∉ events (gate w)) /\
  (EvNext ∉ events (gate w)) /\
  world_after (gate w) = w.
Proof.
  intros H. apply header_rejected_cases in H.
  rewrite (gate_denied verify next w H). unfold outcome, events, world_after; simpl.
  repeat split; try reflexivity; intros; apply not_elem_of_nil.
Qed.

(** C2. When [verify] returns a truthy claim for the token after
    ["Bearer "], the gate stores exactly that claim under ["user"] and then
    calls the next handler, which therefore reads the verified identity:
    the handler runs in the world where [c.get('user')] is the claim. *)
Theorem verified_claim_is_attached_then_next (w : World Ext) (h : string) (decoded : value) :
  req_header (request w) "Authorization" = Some h ->
  startsWith h "Bearer " = true ->
  verify (slice h 7) "BLOG_SECRET" = Normal decoded ->
  truthy decoded = true ->
  let handed_over := set_var "user" decoded w in
  c_get handed_over "user" = decoded /\
  userId handed_over = opt_chain decoded "id" /\
  world_after (gate w) = fst (next handed_over) /\
  events (gate w) =
    [EvVerify (slice h 7) "BLOG_SECRET"; EvSet "user" decoded; EvNext] ++
    match snd (next handed_over) with
    | Normal _ => []
    | Thrown e => [EvLog e]
    end /\
  (snd (next handed_over) = Normal tt -> outcome (gate w) = Normal None).
Proof.
  intros Hh Hp Hv Ht handed_over.
  assert (Hc : c_get handed_over "user" = decoded).
  { unfold c_get, handed_over, set_var; simpl. rewrite lookup_insert_eq. reflexivity. }
  split; [exact Hc|]. split; [unfold userId; rewrite Hc; reflexivity|].
  pose proof (gate_verify_truthy verify next w decoded) as G.
  rewrite Hh in G. change (Middleware.token_of (Some h)) with (slice h 7) in G.
  specialize (G (header_accepted h Hp) Hv Ht). rewrite G. fold handed_over.
  destruct (next handed_over) as [w' [[]|e]]; simpl; repeat split; try reflexivity.
  discriminate.
Qed.

(** C3. When [verify] throws, the gate catches the error, writes it to the
    console, answers 400 with the JSON body [{message: "Invalid Token"}],
    and does not call the next handler. *)
Theorem verify_exception_is_bad_request (w : World Ext) (h : string) (e : error) :
  req_header (request w) "Authorization" = Some h ->
  startsWith h "Bearer " = true ->
  verify (slice h 7) "BLOG_SECRET" = Thrown e ->
  outcome (gate w) =
    Normal (Some (mkResponse 400 (JsonBody (VObj [("message", VStr "Invalid Token")])))) /\
  events (gate w) = [EvVerify (slice h 7) "BLOG_SECRET"; EvLog e] /\
  (EvNext ∉ events (gate w)) /\
  world_after (gate w) = w.
Proof.
  intros Hh Hp Hv.
  pose proof (gate_verify_throws verify next w e) as G.
  rewrite Hh in G. change (Middleware.token_of (Some h)) with (slice h 7) in G.
  rewrite (G (header_accepted h Hp) Hv). unfold outcome, events, world_after; simpl.
  repeat split; try reflexivity.
  intros Hin. apply elem_of_cons in Hin as [|Hin]; [discriminate|].
  apply elem_of_cons in Hin as [|Hin]; [discriminate|].
  exact (not_elem_of_nil _ Hin).
Qed.

(** C6. When [verify] returns without throwing but its result is falsy, the
    gate answers 401 with the plain text ["You are an unauthorized user,
    sorry"] and does not call the next handler. *)
Theorem falsy_claim_is_unauthorized (w : World Ext) (h : string) (decoded : value) :
  req_header (request w) "Authorization" = Some h ->
  startsWith h "Bearer " = true ->
  verify (slice h 7) "BLOG_SECRET" = Normal decoded ->
  truthy decoded = false ->
  outcome (gate w) =
    Normal (Some (mkResponse 401 (TextBody "You are an unauthorized user, sorry"))) /\
  (EvNext ∉ events (gate w)) /\
  (forall key v, EvSet key v ∉ events (gate w)) /\
  world_after (gate w) = w.
Proof.
  intros Hh Hp Hv Ht.
  pose proof (gate_verify_falsy verify next w decoded) as G.
  rewrite Hh in G. change (Middleware.token_of (Some h)) with (slice h 7) in G.
  rewrite (G (header_accepted h Hp) Hv Ht). unfold outcome, events, world_after; simpl.
  repeat split; try reflexivity; intros;
    (intros Hin; apply elem_of_cons in Hin as [|Hin];
     [discriminate | exact (not_elem_of_nil _ Hin)]).
Qed.

End GateProperties.

(** Membership of an event in an explicit list that does not hold it. *)
Ltac no_such_event H :=
  repeat (apply elem_of_cons in H as [H|H]; [discriminate H|]);
  apply not_elem_of_nil in H; destruct H.

(** ** What the gate writes *)

Section GateFrame.

Context {Ext : Type}.
Variable verify : string -> string -> completion value.
Variable next : World Ext -> World Ext * completion unit.

Abbreviation gate := (Middleware.authMiddleware verify next).

(** Every request takes exactly one of the four paths. *)
Lemma gate_cases (w : World Ext) :
  (Middleware.header_rejected (req_header (request w) "Authorization") = true /\
   gate w = ([], w, Normal (Some Middleware.access_denied))) \/
  (exists h, req_header (request w) "Authorization" = Some h /\
     startsWith h "Bearer " = true /\
     ((exists e, verify (slice h 7) "BLOG_SECRET" = Thrown e /\
         gate w = ([EvVerify (slice h 7) "BLOG_SECRET"; EvLog e], w,
                   Normal (Some Middleware.invalid_token))) \/
      (exists d, verify (slice h 7) "BLOG_SECRET" = Normal d /\ truthy d = false /\
         gate w = ([EvVerify (slice h 7) "BLOG_SECRET"], w,
                   Normal (Some Middleware.unauthorized_user))) \/
      (exists d, verify (slice h 7) "BLOG_SECRET" = Normal d /\ truthy d = true /\
         world_after (gate w) = fst (next (set_var "user" d w)) /\
         exists tail, events (gate w) =
           [EvVerify (slice h 7) "BLOG_SECRET"; EvSet "user" d; EvNext] ++ tail /\
           forall key v, EvSet key v ∉ tail))).
Proof.
  destruct (Middleware.header_rejected (req_header (request w) "Authorization")) eqn:Hr.
  { left. split; [reflexivity|]. apply gate_denied, Hr. }
  right.
  destruct (req_header (request w) "Authorization") as [h|] eqn:Hh; [|discriminate].
  exists h. split; [reflexivity|].
  assert (Hp : startsWith h "Bearer " = true).
  { unfold Middleware.header_rejected in Hr. apply orb_false_elim in Hr as [_ Hr].
    now apply negb_false_iff in Hr. }
  split; [exact Hp|].
  pose proof (gate_verify_throws verify next w) as Gt.
  pose proof (gate_verify_falsy verify next w) as Gf.
  pose proof (gate_verify_truthy verify next w) as Ga.
  rewrite Hh in Gt, Gf, Ga. change (Middleware.token_of (Some h)) with (slice h 7) in Gt, Gf, Ga.
  destruct (verify (slice h 7) "BLOG_SECRET") as [d|e] eqn:Hv.
  - destruct (truthy d) eqn:Ht.
    + right. right. exists d. split; [reflexivity|]. split; [exact Ht|].
      rewrite (Ga d Hr eq_refl Ht).
      destruct (next (set_var "user" d w)) as [w' [[]|e]]; simpl.
      * split; [reflexivity|]. exists []. split; [reflexivity|].
        intros; apply not_elem_of_nil.
      * split; [reflexivity|]. exists [EvLog e]. split; [reflexivity|].
        intros key v Hin.
        apply elem_of_cons in Hin as [|Hin]; [discriminate|].
        exact (not_elem_of_nil _ Hin).
    + right. left. exists d. split; [reflexivity|]. split; [exact Ht|].
      apply (Gf d Hr eq_refl Ht).
  - left. exists e. split; [reflexivity|]. apply (Gt e Hr eq_refl).
Qed.

Lemma set_var_frame (key : string) (v : value) (w : World Ext) :
  request (set_var key v w) = request w /\
  env (set_var key v w) = env w /\
  ext (set_var key v w) = ext w /\
  vars (set_var key v w) !! key = Some v /\
  forall other, other ≠ key -> vars (set_var key v w) !! other = vars w !! other.
Proof.
  unfold set_var; simpl. repeat split; try reflexivity.
  - apply lookup_insert_eq.
  - intros other Hne. apply lookup_insert_ne. congruence.
Qed.

(** C7. The only write the gate performs is [c.set('user', decoded)], and it
    performs it exactly on the success path.  On every other path the world
    after the gate is the world before it.  On the success path the next
    handler is started in the world that differs from the original one in
    the ["user"] variable alone: the request, the environment bindings, the
    state outside the request and every other context variable are as they
    were.  (Console output is an event of the run, not part of the world.) *)
Theorem gate_writes_only_user (w : World Ext) :
  (forall key v, EvSet key v ∈ events (gate w) -> key = "user" /\ accepted verify w v) /\
  (forall d, accepted verify w d ->
     EvSet "user" d ∈ events (gate w) /\
     world_after (gate w) = fst (next (set_var "user" d w))) /\
  ((forall d, ~ accepted verify w d) -> world_after (gate w) = w) /\
  (forall d,
     request (set_var "user" d w) = request w /\
     env (set_var "user" d w) = env w /\
     ext (set_var "user" d w) = ext w /\
     forall key, key ≠ "user" -> vars (set_var "user" d w) !! key = vars w !! key).
Proof.
  assert (Hframe : forall d,
     request (set_var "user" d w) = request w /\
     env (set_var "user" d w) = env w /\
     ext (set_var "user" d w) = ext w /\
     forall key, key ≠ "user" -> vars (set_var "user" d w) !! key = vars w !! key).
  { intros d. destruct (set_var_frame "user" d w) as (Hq & He & Hx & _ & Ho). auto. }
  destruct (gate_cases w) as
    [[Hr G] | (h & Hh & Hp & [(e & Hv & G) | [(d & Hv & Ht & G) | (d & Hv & Ht & Hw & tail & Hev & Htail)]])].
  - (* the header is rejected *)
    assert (Hno : forall d, ~ accepted verify w d).
    { intros d (h & Hh & Hp & _). rewrite Hh, (header_accepted h Hp) in Hr. discriminate. }
    rewrite G. unfold events, world_after; simpl.
    split; [|split; [|split]]; [ | | reflexivity | exact Hframe].
    + intros key v Hin. no_such_event Hin.
    + intros d Hacc. destruct (Hno d Hacc).
  - (* verify throws *)
    assert (Hno : forall d, ~ accepted verify w d).
    { intros d (h' & Hh' & _ & Hv' & _). rewrite Hh in Hh'. injection Hh' as <-.
      rewrite Hv in Hv'. discriminate. }
    rewrite G. unfold events, world_after; simpl.
    split; [|split; [|split]]; [ | | reflexivity | exact Hframe].
    + intros key v Hin. no_such_event Hin.
    + intros d Hacc. destruct (Hno d Hacc).
  - (* verify returns a falsy value *)
    assert (Hno : forall d', ~ accepted verify w d').
    { intros d' (h' & Hh' & _ & Hv' & Ht'). rewrite Hh in Hh'. injection Hh' as <-.
      rewrite Hv in Hv'. injection Hv' as <-. rewrite Ht in Ht'. discriminate. }
    rewrite G. unfold events, world_after; simpl.
    split; [|split; [|split]]; [ | | reflexivity | exact Hframe].
    + intros key v Hin. no_such_event Hin.
    + intros d' Hacc. destruct (Hno d' Hacc).
  - (* verify returns a truthy claim *)
    assert (Hacc : accepted verify w d) by (exists h; auto).
    assert (Honly : forall d', accepted verify w d' -> d' = d).
    { intros d' (h' & Hh' & _ & Hv' & _). rewrite Hh in Hh'. injection Hh' as <-.
      rewrite Hv in Hv'. now injection Hv'. }
    split; [|split; [|split]]; [ | | | exact Hframe].
    + intros key v Hin. rewrite Hev in Hin.
      apply elem_of_cons in Hin as [Hin|Hin]; [discriminate Hin|].
      apply elem_of_cons in Hin as [Hin|Hin]; [injection Hin as -> ->; auto|].
      apply elem_of_cons in Hin as [Hin|Hin]; [discriminate Hin|].
      destruct (Htail _ _ Hin).
    + intros d' Hacc'. rewrite (Honly _ Hacc'). split; [|exact Hw].
      rewrite Hev. apply elem_of_cons. right. apply elem_of_cons. now left.
    + intros Hno. destruct (Hno d Hacc).
Qed.





(** X24. An empty object is truthy: a token whose claim is [{}] takes the
    success path, not the 401 of a falsy result. *)
Remark empty_object_claim_passes (w : World Ext) (h : string) :
  req_header (request w) "Authorization" = Some h ->
  startsWith h "Bearer " = true ->
  verify (slice h 7) "BLOG_SECRET" = Normal (VObj []) ->
  EvSet "user" (VObj []) ∈ events (gate w) /\ EvNext ∈ events (gate w).
Proof.
  intros Hh Hp Hv.
  pose proof (gate_verify_truthy verify next w (VObj [])) as G.
  rewrite Hh in G. change (Middleware.token_of (Some h)) with (slice h 7) in G.
  rewrite (G (header_accepted h Hp) Hv eq_refl).
  destruct (next (set_var "user" (VObj []) w)) as [w' [[]|e]]; unfold events; simpl;
    split; repeat (apply elem_of_cons; first [left; reflexivity | right]).
Qed.

(** X25. [await next()] sits inside the [try]: when the rest of the chain
    rejects, the gate reports it as an invalid token. *)
Remark rejection_downstream_is_reported_as_invalid_token
    (w : World Ext) (h : string) (decoded : value) (w' : World Ext) (e : error) :
  req_header (request w) "Authorization" = Some h ->
  startsWith h "Bearer " = true ->
  verify (slice h 7) "BLOG_SECRET" = Normal decoded ->
  truthy decoded = true ->
  next (set_var "user" decoded w) = (w', Thrown e) ->
  outcome (gate w) = Normal (Some Middleware.invalid_token).
Proof.
  intros Hh Hp Hv Ht Hn.
  pose proof (gate_verify_truthy verify next w decoded) as G.
  rewrite Hh in G. change (Middleware.token_of (Some h)) with (slice h 7) in G.
  rewrite (G (header_accepted h Hp) Hv Ht), Hn. reflexivity.
Qed.

End GateFrame.

(** ** Signin and the secret *)

Section SigninProperties.

Context {Ext : Type}.
Variable sign : value -> string -> completion string.
Variable is_email : string -> bool.
Variable invalid_type_message : value -> string.
Variable user_findUnique : Ext -> string -> string -> string -> completion (option User).
Variable verify : string -> string -> completion value.
Variable next : World Ext -> World Ext * completion unit.

Abbreviation signin := (Signin.signin sign is_email invalid_type_message user_findUnique).
Abbreviation schema_parse := (Signin.userSigninSchema_parse is_email invalid_type_message).
Abbreviation gate := (Middleware.authMiddleware verify next).

(** The run of a signin that finds the user. *)
Lemma signin_found (w : World Ext) (data : value) (email password : string) (user : User) :
  req_json (request w) = Normal data ->
  schema_parse data = Normal (email, password) ->
  user_findUnique (ext w) (prismaClient (DATABASE_URL (env w))) email password = Normal (Some user) ->
  signin w =
    match sign (Signin.payload_of user) "BLOG_SECRET" with
    | Normal token =>
        ([EvSign (Signin.payload_of user) "BLOG_SECRET"], w,
         Normal (c_json (VObj [("message", VStr "Sign in successful");
                               ("user", user_json user);
                               ("token", VStr token)]) 200))
    | Thrown e =>
        ([EvSign (Signin.payload_of user) "BLOG_SECRET"; EvLog e], w,
         Normal (match e with
                 | ZodError issues => c_json (VObj [("message", issues_json issues)]) 400
                 | _ => c_json (VObj [("message", VStr "Internal server error")]) 500
                 end))
    end.
Proof.
  intros Hj Hp Hu.
  unfold Signin.signin, Signin.call_sign, try_catch, bind, get_world, console_error,
    emit, await, ret.
  rewrite Hj, Hp. simpl. rewrite Hu.
  destruct (sign (Signin.payload_of user) "BLOG_SECRET") as [token|[]]; reflexivity.
Qed.




(** C9. A signin that succeeds signs the payload [{id, email, password}]
    built from the row it found: the stored password is in the token next to
    the id and the e-mail address.  When the codec gives that payload back
    for the token, the gate attaches it to the context, so the ["user"]
    entry of a protected request carries the password as well. *)
Theorem signin_token_carries_password
    (w : World Ext) (data : value) (email password token : string) (user : User) :
  req_json (request w) = Normal data ->
  schema_parse data = Normal (email, password) ->
  user_findUnique (ext w) (prismaClient (DATABASE_URL (env w))) email password = Normal (Some user) ->
  sign (Signin.payload_of user) "BLOG_SECRET" = Normal token ->
  let payload := Signin.payload_of user in
  events (signin w) = [EvSign payload "BLOG_SECRET"] /\
  outcome (signin w) =
    Normal (mkResponse 200 (JsonBody (VObj [("message", VStr "Sign in successful");
                                            ("user", user_json user);
                                            ("token", VStr token)]))) /\
  opt_chain payload "id" = VNum (user_id user) /\
  opt_chain payload "email" = VStr (user_email user) /\
  opt_chain payload "password" = VStr (user_password user) /\
  (forall protected : World Ext,
     req_header (request protected) "Authorization" = Some ("Bearer " +:+ token) ->
     verify token "BLOG_SECRET" = Normal payload ->
     EvSet "user" payload ∈ events (gate protected) /\
     opt_chain (c_get (set_var "user" payload protected) "user") "password"
       = VStr (user_password user) /\
     world_after (gate protected) = fst (next (set_var "user" payload protected))).
Proof.
  intros Hj Hp Hu Hs payload.
  rewrite (signin_found w data email password user Hj Hp Hu), Hs.
  split; [reflexivity|]. split; [reflexivity|].
  split; [reflexivity|]. split; [reflexivity|]. split; [reflexivity|].
  intros protected Hh Hv.
  pose proof (gate_verify_truthy verify next protected payload) as G.
  rewrite Hh in G. specialize (G eq_refl Hv eq_refl).
  split; [|split].
  - rewrite G. destruct (next (set_var "user" payload protected)) as [w' [[]|e]];
      unfold events; simpl; apply elem_of_cons; right; apply elem_of_cons; now left.
  - unfold c_get, set_var; simpl. rewrite lookup_insert_eq. reflexivity.
  - rewrite G. destruct (next (set_var "user" payload protected)) as [w' [[]|e]];
      reflexivity.
Qed.

End SigninProperties.

(** ** Splitting at a separator *)

Lemma occurs_app (c : ascii) (a b : string) :
  occurs c (a +:+ b) = occurs c a || occurs c b.
Proof.
  induction a as [|d a IH]; [reflexivity|].
  rewrite append_cons. simpl. rewrite IH. apply orb_assoc.
Qed.

Lemma split_on_absent (sep : ascii) (a : string) :
  occurs sep a = false -> split_on sep a = [a].
Proof.
  induction a as [|d a IH]; intros H; [reflexivity|].
  simpl in H. apply orb_false_elim in H as [Hd Ha].
  simpl. rewrite Hd, (IH Ha). reflexivity.
Qed.

Lemma split_on_first (sep : ascii) (a b : string) :
  occurs sep a = false ->
  split_on sep (a +:+ String sep b) = a :: split_on sep b.
Proof.
  induction a as [|d a IH]; intros H.
  - rewrite append_nil_l. simpl. rewrite Ascii.eqb_refl. reflexivity.
  - simpl in H. apply orb_false_elim in H as [Hd Ha].
    rewrite append_cons. simpl. rewrite Hd, (IH Ha). reflexivity.
Qed.

Lemma split_on_three (sep : ascii) (a b c : string) :
  occurs sep a = false -> occurs sep b = false -> occurs sep c = false ->
  split_on sep (a +:+ String sep EmptyString +:+ b +:+ String sep EmptyString +:+ c)
    = [a; b; c].
Proof.
  intros Ha Hb Hc.
  change (String sep EmptyString +:+ b +:+ String sep EmptyString +:+ c)
    with (String sep (b +:+ String sep c)).
  rewrite (split_on_first sep a _ Ha), (split_on_first sep b _ Hb),
    (split_on_absent sep c Hc).
  reflexivity.
Qed.

(** ** The codec of the specification *)

Section CodecProperties.

Variable header_segment : string.
Variable encode_claim : value -> string.
Variable decode_claim : string -> option value.
Variable signature : string -> string -> string.

(** What makes the four parameters a codec: no segment holds a dot, and
    decoding undoes encoding on claims. *)
Hypothesis header_has_no_dot : occurs "." header_segment = false.
Hypothesis claim_has_no_dot : forall c, occurs "." (encode_claim c) = false.
Hypothesis signature_has_no_dot : forall secret bytes, occurs "." (signature secret bytes) = false.
Hypothesis decode_encode : forall c, scalar_claim c -> decode_claim (encode_claim c) = Some c.

Abbreviation sign := (TokenCodec.sign header_segment encode_claim signature).
Abbreviation verify := (TokenCodec.verify decode_claim signature).

Lemma segments_of_signed (claim : value) (secret : string) :
  exists token,
    sign claim secret = Normal token /\
    split_on "." token =
      [header_segment; encode_claim claim; signature secret (encode_claim claim)].
Proof.
  eexists. split; [reflexivity|].
  apply split_on_three; auto.
Qed.

(** No codec parses the empty token: it is one segment, not three. *)
Lemma verify_empty (secret : string) : verify "" secret = Thrown (JwtError Malformed).
Proof. reflexivity. Qed.

(** In a codec whose claim encoding can be undone, [verify] gives back what
    [sign] was given, for the same secret.  (That the encoding of the
    service's codec can be undone is an assumption here, not a result.) *)
Lemma verify_sign_round_trip (claim : value) (secret : string) :
  scalar_claim claim ->
  exists token, sign claim secret = Normal token /\ verify token secret = Normal claim.
Proof.
  intros Hc.
  destruct (segments_of_signed claim secret) as (token & Hs & Hsplit).
  exists token. split; [exact Hs|].
  unfold TokenCodec.verify. rewrite Hsplit, (decode_encode claim Hc), String.eqb_refl.
  reflexivity.
Qed.

(** What [verify] says to a token made with another secret: it compares
    the two signatures over the claim bytes. *)
Lemma verify_other_secret (claim : value) (secret secret' token : string) :
  sign claim secret' = Normal token ->
  verify token secret =
    match decode_claim (encode_claim claim) with
    | Some decoded =>
        if String.eqb (signature secret' (encode_claim claim))
                      (signature secret (encode_claim claim))
        then Normal decoded
        else Thrown (JwtError InvalidSignature)
    | None => Thrown (JwtError Malformed)
    end.
Proof.
  intros Hs.
  destruct (segments_of_signed claim secret') as (token' & Hs' & Hsplit).
  rewrite Hs in Hs'. injection Hs' as <-.
  unfold TokenCodec.verify. rewrite Hsplit. reflexivity.
Qed.

(** C4, as amended.  A token signed with a secret other than the gate's,
    whose signature over the claim bytes differs from the one the gate's
    secret gives, makes [verify] throw, so the gate answers through its
    exception handler: 400 with [{message: "Invalid Token"}], not 401, and
    the next handler is not called. *)
Theorem foreign_signature_is_bad_request {Ext : Type}
    (next : World Ext -> World Ext * completion unit) (w : World Ext)
    (claim : value) (secret' token : string) :
  secret' <> "BLOG_SECRET" ->
  signature secret' (encode_claim claim) <> signature "BLOG_SECRET" (encode_claim claim) ->
  sign claim secret' = Normal token ->
  req_header (request w) "Authorization" = Some ("Bearer " +:+ token) ->
  (exists why, verify token "BLOG_SECRET" = Thrown (JwtError why) /\
     (decode_claim (encode_claim claim) <> None -> why = InvalidSignature)) /\
  outcome (Middleware.authMiddleware verify next w) =
    Normal (Some (mkResponse 400 (JsonBody (VObj [("message", VStr "Invalid Token")])))) /\
  (forall r, outcome (Middleware.authMiddleware verify next w) = Normal (Some r) ->
     status r <> 401) /\
  (EvNext ∉ events (Middleware.authMiddleware verify next w)) /\
  world_after (Middleware.authMiddleware verify next w) = w.
Proof.
  intros _ Hsig Hs Hh.
  pose proof (verify_other_secret claim "BLOG_SECRET" secret' token Hs) as Hv.
  assert (Hthrown : exists why, verify token "BLOG_SECRET" = Thrown (JwtError why) /\
             (decode_claim (encode_claim claim) <> None -> why = InvalidSignature)).
  { rewrite Hv. destruct (decode_claim (encode_claim claim)) as [decoded|].
    - destruct (String.eqb_spec (signature secret' (encode_claim claim))
                                (signature "BLOG_SECRET" (encode_claim claim)))
        as [Heq|_]; [destruct (Hsig Heq)|].
      eexists. split; [reflexivity|]. reflexivity.
    - eexists. split; [reflexivity|]. intros Hd. now destruct Hd. }
  split; [exact Hthrown|].
  destruct Hthrown as (why & Hwhy & _).
  pose proof (gate_verify_throws verify next w) as G.
  rewrite Hh in G. specialize (G _ eq_refl Hwhy). rewrite G.
  unfold outcome, events, world_after; simpl.
  split; [reflexivity|]. split; [|split; [|reflexivity]].
  - intros r Hr. injection Hr as <-. discriminate.
  - intros Hin. no_such_event Hin.
Qed.

(** When the two secrets sign the claim bytes alike, the token passes. *)
Lemma verify_same_signature (claim decoded : value) (secret secret' token : string) :
  signature secret' (encode_claim claim) = signature secret (encode_claim claim) ->
  decode_claim (encode_claim claim) = Some decoded ->
  sign claim secret' = Normal token ->
  verify token secret = Normal decoded.
Proof.
  intros Hsig Hd Hs.
  rewrite (verify_other_secret claim secret secret' token Hs), Hd, Hsig, String.eqb_refl.
  reflexivity.
Qed.

End CodecProperties.

(** ** The reference codec is a codec *)

Module RefCodecLaws.
Import RefCodec.

Ltac each_byte c := destruct c as [[] [] [] [] [] [] [] []].

Lemma hex_byte_digits (c : ascii) :
  exists a b, hex_byte c = String a (String b EmptyString) /\
              hex_value a <> None /\ hex_value b <> None.
Proof. each_byte c; do 2 eexists; (split; [reflexivity|]); split; discriminate. Qed.

Lemma unhex_hex_byte (c : ascii) (rest : string) :
  unhex (hex_byte c +:+ rest) =
    match unhex rest with
    | Some tail => Some (String c tail)
    | None => None
    end.
Proof. each_byte c; reflexivity. Qed.

Lemma unhex_hex (s : string) : unhex (hex s) = Some s.
Proof.
  induction s as [|c s IH]; [reflexivity|].
  simpl hex. rewrite unhex_hex_byte, IH. reflexivity.
Qed.

Lemma hex_inj (s t : string) : hex s = hex t -> s = t.
Proof.
  intros H. apply (f_equal unhex) in H. rewrite !unhex_hex in H. now injection H.
Qed.

(** A character that is not a hexadecimal digit does not occur in [hex s]. *)
Lemma hex_avoids (sep : ascii) (s : string) :
  hex_value sep = None -> occurs sep (hex s) = false.
Proof.
  intros Hsep. induction s as [|c s IH]; [reflexivity|].
  simpl hex. rewrite occurs_app, IH, orb_false_r.
  destruct (hex_byte_digits c) as (a & b & -> & Ha & Hb). simpl.
  destruct (Ascii.eqb_spec a sep) as [->|_]; [contradiction|].
  destruct (Ascii.eqb_spec b sep) as [->|_]; [contradiction|].
  reflexivity.
Qed.

Lemma decode_encode_number (n : Z) : decode_number (encode_number n) = Some n.
Proof.
  unfold decode_number, encode_number.
  destruct n as [|p|p].
  - reflexivity.
  - rewrite NilZero.isi.
    + now rewrite DecimalZ.of_to.
    + simpl. intros [= H]. now apply DecimalPos.Unsigned.to_uint_nonnil in H.
    + discriminate.
  - rewrite NilZero.isi.
    + now rewrite DecimalZ.of_to.
    + discriminate.
    + simpl. intros [= H]. now apply DecimalPos.Unsigned.to_uint_nonnil in H.
Qed.

Lemma parse_encode_scalar (v : value) :
  is_scalar v = true -> parse_scalar (encode_scalar v) = Some v.
Proof.
  destruct v; try discriminate; intros _; simpl.
  - rewrite unhex_hex, decode_encode_number. reflexivity.
  - rewrite unhex_hex. reflexivity.
Qed.

Lemma encode_scalar_avoids (sep : ascii) (v : value) :
  hex_value sep = None -> sep <> "s"%char -> sep <> "n"%char -> sep <> "x"%char ->
  occurs sep (encode_scalar v) = false.
Proof.
  intros Hsep Hs Hn Hx.
  assert (Es : Ascii.eqb "s" sep = false) by (apply Ascii.eqb_neq; congruence).
  assert (En : Ascii.eqb "n" sep = false) by (apply Ascii.eqb_neq; congruence).
  assert (Ex : Ascii.eqb "x" sep = false) by (apply Ascii.eqb_neq; congruence).
  destruct v; unfold encode_scalar; cbn [occurs];
    rewrite ?Es, ?En, ?Ex, ?hex_avoids; auto.
Qed.

Lemma parse_encode_field (kv : string * value) :
  is_scalar (snd kv) = true -> parse_field (encode_field kv) = Some kv.
Proof.
  destruct kv as [k v]; simpl; intros Hv.
  unfold parse_field, encode_field; simpl fst; simpl snd.
  change (":" +:+ encode_scalar v) with (String ":" (encode_scalar v)).
  rewrite split_on_first by (now apply hex_avoids).
  rewrite split_on_absent by (apply encode_scalar_avoids; [reflexivity|discriminate..]).
  rewrite unhex_hex, (parse_encode_scalar v Hv). reflexivity.
Qed.

Lemma encode_field_avoids_semicolon (kv : string * value) :
  occurs ";" (encode_field kv) = false.
Proof.
  unfold encode_field. rewrite !occurs_app.
  rewrite hex_avoids by reflexivity.
  rewrite encode_scalar_avoids by (reflexivity || discriminate).
  reflexivity.
Qed.

Lemma parse_encode_fields (fields : list (string * value)) :
  Forall (fun kv => is_scalar (snd kv) = true) fields ->
  parse_fields (split_on ";" (encode_fields fields)) = Some fields.
Proof.
  induction 1 as [|kv rest Hkv _ IH]; [reflexivity|].
  simpl encode_fields.
  change (";" +:+ encode_fields rest) with (String ";" (encode_fields rest)).
  rewrite split_on_first by apply encode_field_avoids_semicolon.
  destruct (split_on ";" (encode_fields rest)) as [|seg segs]; [discriminate IH|].
  change (parse_fields (encode_field kv :: seg :: segs))
    with (match parse_field (encode_field kv), parse_fields (seg :: segs) with
          | Some kv', Some kvs => Some (kv' :: kvs)
          | _, _ => None
          end).
  rewrite (parse_encode_field kv Hkv), IH. reflexivity.
Qed.

Lemma decode_encode (c : value) : scalar_claim c -> decode_claim (encode_claim c) = Some c.
Proof.
  destruct c; try contradiction. intros [_ Hf].
  unfold decode_claim, encode_claim, parse, serialize.
  rewrite unhex_hex, (parse_encode_fields fields Hf). reflexivity.
Qed.

Lemma header_has_no_dot : occurs "." header_segment = false.
Proof. reflexivity. Qed.

Lemma claim_has_no_dot (c : value) : occurs "." (encode_claim c) = false.
Proof. now apply hex_avoids. Qed.

Lemma signature_has_no_dot (secret bytes : string) :
  occurs "." (signature secret bytes) = false.
Proof. unfold signature. rewrite occurs_app, !hex_avoids; reflexivity. Qed.

Lemma append_inj_l (a b c : string) : a +:+ b = a +:+ c -> b = c.
Proof.
  induction a as [|d a IH]; intros H; [exact H|].
  rewrite !append_cons in H. injection H as H. exact (IH H).
Qed.

Lemma signature_separates_secrets (secret secret' bytes : string) :
  signature secret bytes = signature secret' bytes -> secret = secret'.
Proof. intros H. apply append_inj_l in H. exact (hex_inj _ _ H). Qed.

End RefCodecLaws.

(** ** Runs on concrete requests *)

(** No header at all: 401, and the codec is never asked. *)
Lemma missing_header_run :
  req_header (request (world_with_header None)) "Authorization" = None /\
  outcome (Middleware.authMiddleware RefCodec.verify next_done (world_with_header None)) =
    Normal (Some (mkResponse 401
      (JsonBody (VObj [("message", VStr "Access Denied. No token provided.")])))).
Proof.
  split; [reflexivity|].
  apply (missing_or_foreign_header_is_denied RefCodec.verify next_done
           (world_with_header None)).
  left. reflexivity.
Defined.

(** The example of the specification: a token for [{id: 1, email:
    "a@b.com"}] under the right secret passes, and the handler reads
    [user.id === 1]. *)
Lemma sample_token_run :
  let w := world_with_header (Some ("Bearer " +:+ token_for sample_claim "BLOG_SECRET")) in
  RefCodec.verify (token_for sample_claim "BLOG_SECRET") "BLOG_SECRET" = Normal sample_claim /\
  userId (set_var "user" sample_claim w) = VNum 1 /\
  events (Middleware.authMiddleware RefCodec.verify next_done w) =
    [EvVerify (token_for sample_claim "BLOG_SECRET") "BLOG_SECRET";
     EvSet "user" sample_claim; EvNext].
Proof.
  intros w.
  assert (Hv : RefCodec.verify (token_for sample_claim "BLOG_SECRET") "BLOG_SECRET"
               = Normal sample_claim) by (vm_compute; reflexivity).
  split; [exact Hv|].
  destruct (verified_claim_is_attached_then_next RefCodec.verify next_done w
              ("Bearer " +:+ token_for sample_claim "BLOG_SECRET") sample_claim
              eq_refl eq_refl Hv eq_refl) as (_ & Hid & _ & Hev & _).
  split; [exact Hid | exact Hev].
Defined.

(** A token that is not three segments: 400. *)
Lemma garbage_token_run :
  let w := world_with_header (Some "Bearer not-a-token") in
  RefCodec.verify "not-a-token" "BLOG_SECRET" = Thrown (JwtError Malformed) /\
  outcome (Middleware.authMiddleware RefCodec.verify next_done w) =
    Normal (Some (mkResponse 400 (JsonBody (VObj [("message", VStr "Invalid Token")])))).
Proof.
  intros w. split; [reflexivity|].
  apply (verify_exception_is_bad_request RefCodec.verify next_done w
           "Bearer not-a-token" (JwtError Malformed) eq_refl eq_refl eq_refl).
Defined.

(** A codec that returns zero: 401 in plain text. *)
Lemma falsy_claim_run :
  let w := world_with_header (Some "Bearer 0") in
  truthy (VNum 0) = false /\
  outcome (Middleware.authMiddleware verify_zero next_done w) =
    Normal (Some (mkResponse 401 (TextBody "You are an unauthorized user, sorry"))).
Proof.
  intros w. split; [reflexivity|].
  apply (falsy_claim_is_unauthorized verify_zero next_done w "Bearer 0" (VNum 0)
           eq_refl eq_refl eq_refl eq_refl).
Defined.



Lemma sample_claim_is_scalar : scalar_claim sample_claim.
Proof.
  split.
  - simpl. apply NoDup_cons. split; [|apply NoDup_singleton].
    intros Hin. apply list_elem_of_singleton in Hin. discriminate Hin.
  - repeat constructor.
Defined.

(** Signing the sample claim and verifying it under the same secret. *)
Lemma sample_round_trip_run :
  scalar_claim sample_claim /\
  exists token,
    RefCodec.sign sample_claim "BLOG_SECRET" = Normal token /\
    RefCodec.verify token "BLOG_SECRET" = Normal sample_claim.
Proof.
  split; [exact sample_claim_is_scalar|].
  apply (verify_sign_round_trip RefCodec.header_segment RefCodec.encode_claim
           RefCodec.decode_claim RefCodec.signature
           RefCodecLaws.header_has_no_dot RefCodecLaws.claim_has_no_dot
           RefCodecLaws.signature_has_no_dot RefCodecLaws.decode_encode
           sample_claim "BLOG_SECRET" sample_claim_is_scalar).
Defined.

(** The sample claim signed with another secret: 400. *)
Lemma foreign_secret_run :
  let token := token_for sample_claim "OTHER_SECRET" in
  let w := world_with_header (Some ("Bearer " +:+ token)) in
  "OTHER_SECRET" <> "BLOG_SECRET" /\
  outcome (Middleware.authMiddleware RefCodec.verify next_done w) =
    Normal (Some (mkResponse 400 (JsonBody (VObj [("message", VStr "Invalid Token")])))).
Proof.
  intros token w. split; [discriminate|].
  apply (foreign_signature_is_bad_request RefCodec.header_segment RefCodec.encode_claim
           RefCodec.decode_claim RefCodec.signature
           RefCodecLaws.header_has_no_dot RefCodecLaws.claim_has_no_dot
           RefCodecLaws.signature_has_no_dot
           next_done w sample_claim "OTHER_SECRET" token
           ltac:(discriminate)
           (fun same => ltac:(apply RefCodecLaws.signature_separates_secrets in same;
                              discriminate same))
           eq_refl eq_refl).
Defined.

(** The padded-key codec has dot-free segments like the reference codec. *)
Lemma padded_signature_has_no_dot (secret bytes : string) :
  occurs "." (PaddedKeyCodec.signature secret bytes) = false.
Proof.
  unfold PaddedKeyCodec.signature. rewrite occurs_app, !RefCodecLaws.hex_avoids; reflexivity.
Qed.

(** Against C4 as stated: under the padded-key codec the sample claim
    signed with the gate's secret plus a zero byte, a different secret, is
    verified by the gate's secret, and the gate hands the request on
    instead of answering 400. *)
Lemma foreign_secret_with_the_same_signature_passes :
  PaddedKeyCodec.padded_secret <> "BLOG_SECRET" /\
  PaddedKeyCodec.sign sample_claim PaddedKeyCodec.padded_secret
    = Normal padded_token /\
  PaddedKeyCodec.verify padded_token "BLOG_SECRET" = Normal sample_claim /\
  outcome (Middleware.authMiddleware PaddedKeyCodec.verify next_done
             (world_with_header (Some ("Bearer " +:+ padded_token))))
    = Normal None /\
  events (Middleware.authMiddleware PaddedKeyCodec.verify next_done
            (world_with_header (Some ("Bearer " +:+ padded_token))))
    = [EvVerify padded_token "BLOG_SECRET";
       EvSet "user" sample_claim; EvNext].
Proof.
  split; [discriminate|]. split; [reflexivity|].
  split; [vm_compute; reflexivity|].
  split; vm_compute; reflexivity.
Qed.

(** Alice signs in; her password travels in the token. *)
Lemma signin_run :
  let token := token_for (Signin.payload_of sample_user) "BLOG_SECRET" in
  RefCodec.sign (Signin.payload_of sample_user) "BLOG_SECRET" = Normal token /\
  events (Signin.signin RefCodec.sign has_at_sign type_message find_user signin_world) =
    [EvSign (VObj [("id", VNum 1); ("email", VStr "a@b.com"); ("password", VStr "hunter22")])
            "BLOG_SECRET"] /\
  opt_chain (Signin.payload_of sample_user) "password" = VStr "hunter22".
Proof.
  intros token.
  assert (Hs : RefCodec.sign (Signin.payload_of sample_user) "BLOG_SECRET" = Normal token)
    by reflexivity.
  split; [exact Hs|].
  destruct (signin_token_carries_password RefCodec.sign has_at_sign type_message find_user
              RefCodec.verify next_keep signin_world
              (VObj [("email", VStr "a@b.com"); ("password", VStr "hunter22")])
              "a@b.com" "hunter22" token sample_user
              eq_refl eq_refl eq_refl Hs) as (Hev & _ & _ & _ & Hpw & _).
  split; [exact Hev | exact Hpw].
Defined.

Section SchemaProperties.

Variable is_email : string -> bool.
Variable invalid_type_message : value -> string.
Variable invalid_tag_issue : nat -> value -> zod_issue.

Abbreviation signin_parse := (Signin.userSigninSchema_parse is_email invalid_type_message).
Abbreviation signup_parse := (Routes.userSignupSchema_parse is_email invalid_type_message).
Abbreviation blog_parse :=
  (Routes.blog_schema_parse invalid_type_message invalid_tag_issue).

Lemma min_length_test (n : Z) (s : string) :
  (n <=? Z.of_nat (js_length s))%Z = true <-> (Z.to_nat n <= js_length s)%nat.
Proof. rewrite Z.leb_le. lia. Qed.

Lemma check_email_passes (v : value) :
  Signin.check_email is_email invalid_type_message v = [] <->
  exists s, v = VStr s /\ is_email s = true.
Proof.
  destruct v; simpl; try (split; [discriminate | intros (? & [=] & _)]).
  destruct (is_email s) eqn:E; split; try discriminate; eauto.
  intros (s' & [= <-] & H). congruence.
Qed.

Lemma check_password_passes (v : value) :
  Signin.check_password invalid_type_message v = [] <->
  exists s, v = VStr s /\ (6 <= js_length s)%nat.
Proof.
  destruct v; simpl; try (split; [discriminate | intros (? & [=] & _)]).
  destruct (6 <=? Z.of_nat (js_length s))%Z eqn:E.
  - apply Z.leb_le in E. split; [|reflexivity].
    intros _. exists s. split; [reflexivity | lia].
  - apply Z.leb_gt in E. split; [discriminate|].
    intros (s' & [= <-] & H). lia.
Qed.

Lemma check_username_passes (v : value) :
  Routes.check_username invalid_type_message v = [] <->
  exists s, v = VStr s /\ (3 <= js_length s)%nat.
Proof.
  destruct v; simpl; try (split; [discriminate | intros (? & [=] & _)]).
  destruct (3 <=? Z.of_nat (js_length s))%Z eqn:E.
  - apply Z.leb_le in E. split; [|reflexivity].
    intros _. exists s. split; [reflexivity | lia].
  - apply Z.leb_gt in E. split; [discriminate|].
    intros (s' & [= <-] & H). lia.
Qed.

Lemma check_title_passes (v : value) :
  Routes.check_title invalid_type_message v = [] <->
  exists s, v = VStr s /\ (3 <= js_length s)%nat.
Proof.
  destruct v; simpl; try (split; [discriminate | intros (? & [=] & _)]).
  destruct (3 <=? Z.of_nat (js_length s))%Z eqn:E.
  - apply Z.leb_le in E. split; [|reflexivity].
    intros _. exists s. split; [reflexivity | lia].
  - apply Z.leb_gt in E. split; [discriminate|].
    intros (s' & [= <-] & H). lia.
Qed.

Lemma check_body_passes (message : string) (v : value) :
  Routes.check_body invalid_type_message message v = [] <->
  exists s, v = VStr s /\ (10 <= js_length s)%nat.
Proof.
  destruct v; simpl; try (split; [discriminate | intros (? & [=] & _)]).
  destruct (10 <=? Z.of_nat (js_length s))%Z eqn:E.
  - apply Z.leb_le in E. split; [|reflexivity].
    intros _. exists s. split; [reflexivity | lia].
  - apply Z.leb_gt in E. split; [discriminate|].
    intros (s' & [= <-] & H). lia.
Qed.

Lemma tag_issues_pass (i : nat) (items : list value) :
  Routes.tag_issues invalid_tag_issue i items = [] <->
  forallb is_allowed_tag items = true.
Proof.
  revert i. induction items as [|item rest IH]; intros i; simpl; [tauto|].
  destruct (is_allowed_tag item); simpl.
  - apply IH.
  - split; discriminate.
Qed.

Lemma allowed_items_are_strings (items : list value) :
  forallb is_allowed_tag items = true ->
  items = map VStr (tag_strings items) /\
  Forall (fun tag => tag ∈ allowedTags) (tag_strings items).
Proof.
  induction items as [|item rest IH]; simpl; [intros _; split; constructor|].
  intros H. apply andb_prop in H as [Hitem Hrest].
  destruct (IH Hrest) as [Heq Hall].
  destruct item; try discriminate. simpl. split.
  - now rewrite <- Heq.
  - constructor; [|exact Hall].
    unfold is_allowed_tag in Hitem. apply existsb_exists in Hitem as (t & Hin & Ht).
    apply String.eqb_eq in Ht. subst t. now apply list_elem_of_In.
Qed.

Lemma strings_are_allowed_items (tags : list string) :
  Forall (fun tag => tag ∈ allowedTags) tags ->
  forallb is_allowed_tag (map VStr tags) = true /\ tag_strings (map VStr tags) = tags.
Proof.
  induction 1 as [|tag rest Htag _ IH]; [split; reflexivity|].
  destruct IH as [Hall Heq]. cbn [map tag_strings forallb]. rewrite Heq.
  split; [|reflexivity].
  apply andb_true_intro. split; [|exact Hall].
  unfold is_allowed_tag. apply existsb_exists. exists tag. split; [now apply list_elem_of_In|].
  apply String.eqb_refl.
Qed.

Lemma check_tags_passes (v : value) :
  Routes.check_tags invalid_type_message invalid_tag_issue v = [] <->
  exists tags, v = VArr (map VStr tags) /\ (length tags <= 10)%nat /\
               Forall (fun tag => tag ∈ allowedTags) tags.
Proof.
  destruct v; simpl; try (split; [discriminate | intros (? & [=] & _)]).
  split.
  - intros H. apply app_eq_nil in H as [Hlen Hitems].
    apply tag_issues_pass in Hitems.
    destruct (allowed_items_are_strings items Hitems) as [Heq Hall].
    exists (tag_strings items). split; [now rewrite <- Heq|]. split; [|exact Hall].
    destruct (Z.of_nat (length items) <=? 10)%Z eqn:E; [|discriminate].
    apply Z.leb_le in E. rewrite Heq, length_map in E. lia.
  - intros (tags & [= ->] & Hlen & Hall).
    destruct (strings_are_allowed_items tags Hall) as [Hok _].
    rewrite length_map.
    destruct (Z.of_nat (length tags) <=? 10)%Z eqn:E; [|apply Z.leb_gt in E; lia].
    simpl. now apply tag_issues_pass.
Qed.

(** What the signin schema returns has passed its tests. *)
Lemma signin_schema_accepted (data : value) (email password : string) :
  signin_parse data = Normal (email, password) ->
  exists fields,
    data = VObj fields /\
    lookup_field "email" fields = VStr email /\ is_email email = true /\
    lookup_field "password" fields = VStr password /\
    (6 <= js_length password)%nat.
Proof.
  unfold Signin.userSigninSchema_parse.
  destruct data; try discriminate. cbv zeta.
  destruct (Signin.check_email is_email invalid_type_message (lookup_field "email" fields)
            ++ Signin.check_password invalid_type_message (lookup_field "password" fields))
    eqn:E; [|discriminate].
  apply app_eq_nil in E as [He Hp].
  apply check_email_passes in He as (e & He & Hok).
  apply check_password_passes in Hp as (p & Hp & Hlen).
  rewrite He, Hp. intros [= <- <-]. exists fields. auto.
Qed.

(** X1. The signin schema accepts exactly the objects whose [email] is a
    string that passes the e-mail test and whose [password] is a string of
    [length] at least six, counted in UTF-16 code units as [s.length] does,
    and it returns those two strings; other keys are ignored. *)
Theorem signin_schema_accepts_iff (data : value) (email password : string) :
  signin_parse data = Normal (email, password) <->
  exists fields,
    data = VObj fields /\
    lookup_field "email" fields = VStr email /\ is_email email = true /\
    lookup_field "password" fields = VStr password /\
    (6 <= js_length password)%nat.
Proof.
  split; [apply signin_schema_accepted|].
  intros (fields & -> & He & Hok & Hp & Hlen).
  unfold Signin.userSigninSchema_parse. cbv zeta. rewrite He, Hp.
  rewrite (proj2 (check_email_passes (VStr email))) by eauto.
  rewrite (proj2 (check_password_passes (VStr password))) by eauto.
  reflexivity.
Qed.

(** What the signup schema returns has passed its tests. *)
Lemma signup_schema_accepted (data : value) (username email password : string) :
  signup_parse data = Normal (username, email, password) ->
  exists fields,
    data = VObj fields /\
    lookup_field "username" fields = VStr username /\
    (3 <= js_length username)%nat /\
    lookup_field "email" fields = VStr email /\ is_email email = true /\
    lookup_field "password" fields = VStr password /\
    (6 <= js_length password)%nat.
Proof.
  unfold Routes.userSignupSchema_parse.
  destruct data; try discriminate. cbv zeta.
  destruct (Routes.check_username invalid_type_message (lookup_field "username" fields)
            ++ Signin.check_email is_email invalid_type_message (lookup_field "email" fields)
            ++ Signin.check_password invalid_type_message (lookup_field "password" fields))
    eqn:E; [|discriminate].
  apply app_eq_nil in E as [Hu E]. apply app_eq_nil in E as [He Hp].
  apply check_username_passes in Hu as (u & Hu & Hul).
  apply check_email_passes in He as (e & He & Hok).
  apply check_password_passes in Hp as (p & Hp & Hlen).
  rewrite Hu, He, Hp. intros [= <- <- <-]. exists fields. auto 10.
Qed.

(** X2. The signup schema accepts exactly the objects with a [username] of
    [length] at least three, an [email] that passes the e-mail test and a
    [password] of [length] at least six, all strings; lengths are counted in
    UTF-16 code units, as [s.length] does. *)
Theorem signup_schema_accepts_iff (data : value) (username email password : string) :
  signup_parse data = Normal (username, email, password) <->
  exists fields,
    data = VObj fields /\
    lookup_field "username" fields = VStr username /\
    (3 <= js_length username)%nat /\
    lookup_field "email" fields = VStr email /\ is_email email = true /\
    lookup_field "password" fields = VStr password /\
    (6 <= js_length password)%nat.
Proof.
  split; [apply signup_schema_accepted|].
  intros (fields & -> & Hu & Hul & He & Hok & Hp & Hlen).
  unfold Routes.userSignupSchema_parse. cbv zeta. rewrite Hu, He, Hp.
  rewrite (proj2 (check_username_passes (VStr username))) by eauto.
  rewrite (proj2 (check_email_passes (VStr email))) by eauto.
  rewrite (proj2 (check_password_passes (VStr password))) by eauto.
  reflexivity.
Qed.

(** What a blog schema returns has passed its tests, whatever the message
    for a short body. *)
Lemma blog_schema_accepted (message : string) (data : value)
    (title body : string) (tags : list string) :
  blog_parse message data = Normal (title, body, tags) ->
  exists fields,
    data = VObj fields /\
    lookup_field "title" fields = VStr title /\ (3 <= js_length title)%nat /\
    lookup_field "body" fields = VStr body /\ (10 <= js_length body)%nat /\
    lookup_field "tags" fields = VArr (map VStr tags) /\
    (length tags <= 10)%nat /\
    Forall (fun tag => tag ∈ allowedTags) tags.
Proof.
  unfold Routes.blog_schema_parse.
  destruct data; try discriminate. cbv zeta.
  destruct (Routes.check_title invalid_type_message (lookup_field "title" fields)
            ++ Routes.check_body invalid_type_message message (lookup_field "body" fields)
            ++ Routes.check_tags invalid_type_message invalid_tag_issue
                 (lookup_field "tags" fields))
    eqn:E; [|discriminate].
  apply app_eq_nil in E as [Ht E]. apply app_eq_nil in E as [Hb Hg].
  apply check_title_passes in Ht as (t & Ht & Htl).
  apply check_body_passes in Hb as (b & Hb & Hbl).
  apply check_tags_passes in Hg as (g & Hg & Hgl & Hall).
  rewrite Ht, Hb, Hg.
  destruct (strings_are_allowed_items g Hall) as [_ Hstrings]. rewrite Hstrings.
  intros [= <- <- <-]. exists fields. auto 10.
Qed.

(** A blog schema's verdict does not depend on the message for a short
    body. *)
Lemma blog_schema_message_irrelevant (message message' : string) (data : value)
    (fields : string * string * list string) :
  blog_parse message data = Normal fields -> blog_parse message' data = Normal fields.
Proof.
  destruct fields as [[title body] tags]. intros H.
  apply blog_schema_accepted in H as (fields & -> & Ht & Htl & Hb & Hbl & Hg & Hgl & Hall).
  unfold Routes.blog_schema_parse. cbv zeta. rewrite Ht, Hb, Hg.
  rewrite (proj2 (check_title_passes (VStr title))) by eauto.
  rewrite (proj2 (check_body_passes message' (VStr body))) by eauto.
  rewrite (proj2 (check_tags_passes (VArr (map VStr tags)))) by eauto.
  destruct (strings_are_allowed_items tags Hall) as [_ Hstrings]. simpl.
  now rewrite Hstrings.
Qed.

(** X3. [blogPostSchema] accepts exactly the objects with a [title] of
    [length] at least three, a [body] of [length] at least ten (both in
    UTF-16 code units, as [s.length] counts) and a [tags] array of at most
    ten strings, each one of [allowedTags]; it returns them as they are,
    repeated tags included. *)
Theorem blog_post_schema_accepts_iff (data : value)
    (title body : string) (tags : list string) :
  Routes.blogPostSchema_parse invalid_type_message invalid_tag_issue data
    = Normal (title, body, tags) <->
  exists fields,
    data = VObj fields /\
    lookup_field "title" fields = VStr title /\ (3 <= js_length title)%nat /\
    lookup_field "body" fields = VStr body /\ (10 <= js_length body)%nat /\
    lookup_field "tags" fields = VArr (map VStr tags) /\
    (length tags <= 10)%nat /\
    Forall (fun tag => tag ∈ allowedTags) tags.
Proof.
  split; [apply blog_schema_accepted|].
  intros (fields & -> & Ht & Htl & Hb & Hbl & Hg & Hgl & Hall).
  unfold Routes.blogPostSchema_parse, Routes.blog_schema_parse. cbv zeta.
  rewrite Ht, Hb, Hg.
  rewrite (proj2 (check_title_passes (VStr title))) by eauto.
  rewrite (proj2 (check_body_passes _ (VStr body))) by eauto.
  rewrite (proj2 (check_tags_passes (VArr (map VStr tags)))) by eauto.
  destruct (strings_are_allowed_items tags Hall) as [_ Hstrings]. simpl.
  now rewrite Hstrings.
Qed.

(** X4. [blogUpdateSchema], which no route uses, accepts the same data as
    [blogPostSchema] with the same result; on the data they reject, both
    throw a [ZodError]. *)
Theorem blog_schemas_agree (data : value) :
  (forall fields,
     Routes.blogUpdateSchema_parse invalid_type_message invalid_tag_issue data = Normal fields <->
     Routes.blogPostSchema_parse invalid_type_message invalid_tag_issue data = Normal fields) /\
  ((exists issues,
      Routes.blogUpdateSchema_parse invalid_type_message invalid_tag_issue data
        = Thrown (ZodError issues)) <->
   (exists issues,
      Routes.blogPostSchema_parse invalid_type_message invalid_tag_issue data
        = Thrown (ZodError issues))).
Proof.
  assert (Hzod : forall message,
            (exists r, blog_parse message data = Normal r) \/
            (exists issues, blog_parse message data = Thrown (ZodError issues))).
  { intros message. unfold Routes.blog_schema_parse.
    destruct data; eauto. cbv zeta.
    destruct (_ ++ _ ++ _); eauto.
    destruct (lookup_field "title" fields); eauto.
    destruct (lookup_field "body" fields); eauto.
    destruct (lookup_field "tags" fields); eauto. }
  assert (Hsame : forall fields,
     Routes.blogUpdateSchema_parse invalid_type_message invalid_tag_issue data = Normal fields <->
     Routes.blogPostSchema_parse invalid_type_message invalid_tag_issue data = Normal fields).
  { intros fields. unfold Routes.blogUpdateSchema_parse, Routes.blogPostSchema_parse.
    split; apply blog_schema_message_irrelevant. }
  split; [exact Hsame|].
  unfold Routes.blogUpdateSchema_parse, Routes.blogPostSchema_parse in *.
  split; intros [issues H].
  - destruct (Hzod "Body should have at least 10 characters") as [[r Hr]|]; [|assumption].
    apply Hsame in Hr. congruence.
  - destruct (Hzod "Body should have atleast 10 characters") as [[r Hr]|]; [|assumption].
    apply Hsame in Hr. congruence.
Qed.

(** X5. When one of the schemas rejects, what it throws is a [ZodError]
    with at least one issue, so the handlers answer a validation failure
    with 400 and the issues, never with 500. *)
Theorem schema_rejections_are_zod_errors (message : string) (data : value) (e : error) :
  signin_parse data = Thrown e \/ signup_parse data = Thrown e \/
  blog_parse message data = Thrown e ->
  (exists issues, e = ZodError issues /\ issues <> []) /\
  status (error_reply e) = 400.
Proof.
  intros H.
  assert (Hz : exists issues, e = ZodError issues /\ issues <> []).
  { destruct H as [H|[H|H]].
    - unfold Signin.userSigninSchema_parse in H.
      destruct data; try (injection H as <-; eexists; split; [reflexivity|discriminate]).
      cbv zeta in H.
      destruct (Signin.check_email is_email invalid_type_message (lookup_field "email" fields)
                ++ Signin.check_password invalid_type_message
                     (lookup_field "password" fields)) eqn:E.
      + apply app_eq_nil in E as [He Hp].
        apply check_email_passes in He as (em & He & _).
        apply check_password_passes in Hp as (pw & Hp & _).
        rewrite He, Hp in H. discriminate.
      + injection H as <-. eexists. split; [reflexivity|discriminate].
    - unfold Routes.userSignupSchema_parse in H.
      destruct data; try (injection H as <-; eexists; split; [reflexivity|discriminate]).
      cbv zeta in H.
      destruct (Routes.check_username invalid_type_message (lookup_field "username" fields)
                ++ Signin.check_email is_email invalid_type_message
                     (lookup_field "email" fields)
                ++ Signin.check_password invalid_type_message
                     (lookup_field "password" fields)) eqn:E.
      + apply app_eq_nil in E as [Hu E]. apply app_eq_nil in E as [He Hp].
        apply check_username_passes in Hu as (un & Hu & _).
        apply check_email_passes in He as (em & He & _).
        apply check_password_passes in Hp as (pw & Hp & _).
        rewrite Hu, He, Hp in H. discriminate.
      + injection H as <-. eexists. split; [reflexivity|discriminate].
    - unfold Routes.blog_schema_parse in H.
      destruct data; try (injection H as <-; eexists; split; [reflexivity|discriminate]).
      cbv zeta in H.
      destruct (Routes.check_title invalid_type_message (lookup_field "title" fields)
                ++ Routes.check_body invalid_type_message message
                     (lookup_field "body" fields)
                ++ Routes.check_tags invalid_type_message invalid_tag_issue
                     (lookup_field "tags" fields)) eqn:E.
      + apply app_eq_nil in E as [Ht E]. apply app_eq_nil in E as [Hb Hg].
        apply check_title_passes in Ht as (t & Ht & _).
        apply check_body_passes in Hb as (b & Hb & _).
        apply check_tags_passes in Hg as (g & Hg & _).
        rewrite Ht, Hb, Hg in H. discriminate.
      + injection H as <-. eexists. split; [reflexivity|discriminate]. }
  split; [exact Hz|]. destruct Hz as (issues & -> & _). reflexivity.
Qed.

End SchemaProperties.

(** ** Running a handler *)

Ltac unfold_run :=
  unfold try_catch, bind, ret, await, emit, console_error, get_world,
    db_read, db_write, database_url, req_json_body, get_userId,
    events, world_after, outcome.

Ltac split_run :=
  repeat match goal with
         | |- context [match ?x with _ => _ end] => destruct x eqn:?
         | p : (_ * _)%type |- _ => destruct p
         end.

Section SigninAnswers.

Context {Ext : Type}.
Variable sign : value -> string -> completion string.
Variable is_email : string -> bool.
Variable invalid_type_message : value -> string.
Variable user_findUnique : Ext -> string -> string -> string -> completion (option User).

Abbreviation signin := (Signin.signin sign is_email invalid_type_message user_findUnique).
Abbreviation schema_parse := (Signin.userSigninSchema_parse is_email invalid_type_message).

(** X6. Signin always answers: no exception escapes it, it leaves the
    world as it found it, and its status is 200, 400 or 500.  It answers
    200 exactly when the body parses, the schema accepts it, the query
    finds a row and signing succeeds. *)
Theorem signin_answers (w : World Ext) :
  exists r,
    outcome (signin w) = Normal r /\
    world_after (signin w) = w /\
    (status r = 200 \/ status r = 400 \/ status r = 500) /\
    (status r = 200 <->
     exists data email password user token,
       req_json (request w) = Normal data /\
       schema_parse data = Normal (email, password) /\
       user_findUnique (ext w) (prismaClient (DATABASE_URL (env w))) email password
         = Normal (Some user) /\
       sign (Signin.payload_of user) "BLOG_SECRET" = Normal token).
Proof.
  unfold Signin.signin, Signin.call_sign. unfold_run.
  destruct (req_json (request w)) as [data|e0] eqn:Hj; simpl.
  2: { destruct e0; eexists; (split; [reflexivity|]); (split; [reflexivity|]);
       (split; [auto|]); (split; [discriminate|]);
       intros (? & ? & ? & ? & ? & [=] & _). }
  destruct (Signin.userSigninSchema_parse is_email invalid_type_message data)
    as [[email password]|e0] eqn:Hp; simpl.
  2: { destruct e0; eexists; (split; [reflexivity|]); (split; [reflexivity|]);
       (split; [auto|]); (split; [discriminate|]);
       intros (? & ? & ? & ? & ? & [= <-] & Hp' & _); congruence. }
  destruct (user_findUnique (ext w) (prismaClient (DATABASE_URL (env w))) email password)
    as [[user|]|e0] eqn:Hu; simpl.
  3: { destruct e0; eexists; (split; [reflexivity|]); (split; [reflexivity|]);
       (split; [auto|]); (split; [discriminate|]);
       intros (? & ? & ? & ? & ? & [= <-] & Hp' & Hu' & _); congruence. }
  2: { eexists; (split; [reflexivity|]); (split; [reflexivity|]);
       (split; [auto|]); (split; [discriminate|]).
       intros (? & ? & ? & ? & ? & [= <-] & Hp' & Hu' & _).
       rewrite Hp in Hp'. injection Hp' as <- <-. congruence. }
  destruct (sign (Signin.payload_of user) "BLOG_SECRET") as [token|e0] eqn:Hs; simpl.
  2: { destruct e0; eexists; (split; [reflexivity|]); (split; [reflexivity|]);
       (split; [auto|]); (split; [discriminate|]);
       intros (? & ? & ? & ? & ? & [= <-] & Hp' & Hu' & Hs');
       rewrite Hp in Hp'; injection Hp' as <- <-;
       rewrite Hu in Hu'; injection Hu' as <-; congruence. }
  eexists. split; [reflexivity|]. split; [reflexivity|]. split; [auto|].
  split; [|reflexivity]. intros _. exists data, email, password, user, token. auto.
Qed.

(** X7. A token is signed only for a row the query returned for the
    submitted credentials, and only after the schema accepted them. *)
Theorem signin_signs_only_for_a_found_row (w : World Ext) (payload : value) (secret : string) :
  EvSign payload secret ∈ events (signin w) ->
  exists data email password user,
    req_json (request w) = Normal data /\
    schema_parse data = Normal (email, password) /\
    user_findUnique (ext w) (prismaClient (DATABASE_URL (env w))) email password
      = Normal (Some user) /\
    payload = Signin.payload_of user /\ secret = "BLOG_SECRET".
Proof.
  unfold Signin.signin, Signin.call_sign. unfold_run.
  destruct (req_json (request w)) as [data|e0] eqn:Hj; simpl.
  2: { intros H. destruct e0; simpl in H; no_such_event H. }
  destruct (Signin.userSigninSchema_parse is_email invalid_type_message data)
    as [[email password]|e0] eqn:Hp; simpl.
  2: { intros H. destruct e0; simpl in H; no_such_event H. }
  destruct (user_findUnique (ext w) (prismaClient (DATABASE_URL (env w))) email password)
    as [[user|]|e0] eqn:Hu; simpl.
  2: { intros H. no_such_event H. }
  2: { intros H. destruct e0; simpl in H; no_such_event H. }
  intros H. exists data, email, password, user.
  repeat (split; [reflexivity || assumption|]).
  destruct (sign (Signin.payload_of user) "BLOG_SECRET") as [token|e0]; simpl in H.
  - apply elem_of_cons in H as [H|H]; [injection H as -> ->; auto|]. no_such_event H.
  - destruct e0; simpl in H;
      (apply elem_of_cons in H as [H|H]; [injection H as -> ->; auto|]); no_such_event H.
Qed.

End SigninAnswers.

Section RouteAnswers.

Context {Ext : Type}.
Variable is_email : string -> bool.
Variable invalid_type_message : value -> string.
Variable invalid_tag_issue : nat -> value -> zod_issue.
Variable Number : option string -> number.
Variable user_findFirst : Ext -> string -> string -> string -> completion (option User).
Variable user_create : Ext -> string -> string -> string -> string -> Ext * completion User.
Variable blog_create :
  Ext -> string -> string -> string -> list string -> value -> Ext * completion Blog.
Variable blog_findMany_select : Ext -> string -> completion (list Blog).
Variable blog_findMany_where : Ext -> string -> value -> completion (list Blog).
Variable blog_findUnique : Ext -> string -> number -> completion (option Blog).
Variable blog_update :
  Ext -> string -> value -> number -> string -> string -> list string -> Ext * completion Blog.
Variable blog_delete : Ext -> string -> number -> value -> Ext * completion Blog.

Abbreviation signup :=
  (Routes.signup is_email invalid_type_message user_findFirst user_create).
Abbreviation create_post :=
  (Routes.create_post invalid_type_message invalid_tag_issue blog_create).
Abbreviation get_posts := (Routes.get_posts blog_findMany_select).
Abbreviation my_posts := (Routes.my_posts blog_findMany_where).
Abbreviation get_post := (Routes.get_post Number blog_findUnique).
Abbreviation update_post :=
  (Routes.update_post invalid_type_message invalid_tag_issue Number blog_update).
Abbreviation delete_post := (Routes.delete_post Number blog_delete).
Abbreviation signup_parse := (Routes.userSignupSchema_parse is_email invalid_type_message).
Abbreviation post_parse :=
  (Routes.blogPostSchema_parse invalid_type_message invalid_tag_issue).
Abbreviation client w := (prismaClient (DATABASE_URL (env w))).

Ltac finish_answer := eexists; repeat (split; [reflexivity|]); reflexivity.

Lemma signup_always_answers : answers_and_keeps_context signup.
Proof.
  intros w. unfold Routes.signup. unfold_run. simpl.
  destruct (req_json (request w)) as [data|[]]; simpl; try finish_answer.
  destruct (Routes.userSignupSchema_parse is_email invalid_type_message data)
    as [[[u e] p]|[]]; simpl; try finish_answer.
  destruct (user_findFirst (ext w) (client w) e u) as [[row|]|[]]; simpl; try finish_answer.
  destruct (user_create (ext w) (client w) u e p) as [db [row|[]]]; simpl; finish_answer.
Qed.

Lemma create_post_always_answers : answers_and_keeps_context create_post.
Proof.
  intros w. unfold Routes.create_post. unfold_run. simpl.
  destruct (req_json (request w)) as [data|[]]; simpl; try finish_answer.
  destruct (Routes.blogPostSchema_parse invalid_type_message invalid_tag_issue data)
    as [[[t b] g]|[]]; simpl; try finish_answer.
  destruct (truthy (userId w)); simpl; try finish_answer.
  destruct (blog_create (ext w) (client w) t b g (userId w)) as [db [row|[]]]; simpl;
    finish_answer.
Qed.

Lemma get_posts_always_answers : answers_and_keeps_context get_posts.
Proof.
  intros w. unfold Routes.get_posts. unfold_run. simpl.
  destruct (blog_findMany_select (ext w) (client w)) as [rows|e]; simpl; finish_answer.
Qed.

Lemma my_posts_always_answers : answers_and_keeps_context my_posts.
Proof.
  intros w. unfold Routes.my_posts. unfold_run. simpl.
  destruct (req_json (request w)) as [data|[]]; simpl; try finish_answer.
  destruct (truthy (userId w)); simpl; try finish_answer.
  destruct (blog_findMany_where (ext w) (client w) (userId w)) as [rows|[]]; simpl;
    finish_answer.
Qed.

Lemma get_post_always_answers param : answers_and_keeps_context (get_post param).
Proof.
  intros w. unfold Routes.get_post. unfold_run. simpl.
  destruct (number_truthy (Number (param "id"))); simpl; try finish_answer.
  destruct (blog_findUnique (ext w) (client w) (Number (param "id"))) as [row|e]; simpl;
    finish_answer.
Qed.

Lemma update_post_always_answers param : answers_and_keeps_context (update_post param).
Proof.
  intros w. unfold Routes.update_post. unfold_run. simpl.
  destruct (req_json (request w)) as [data|[]]; simpl; try finish_answer.
  destruct (Routes.blogPostSchema_parse invalid_type_message invalid_tag_issue data)
    as [[[t b] g]|[]]; simpl; try finish_answer.
  destruct (truthy (userId w)); simpl; try finish_answer.
  destruct (blog_update (ext w) (client w) (userId w) (Number (param "id")) t b g)
    as [db [row|[]]]; simpl; finish_answer.
Qed.

Lemma delete_post_always_answers param : answers_and_keeps_context (delete_post param).
Proof.
  intros w. unfold Routes.delete_post. unfold_run. simpl.
  destruct (truthy (userId w)); simpl; try finish_answer.
  destruct (blog_delete (ext w) (client w) (Number (param "id")) (userId w))
    as [db [row|e]]; simpl; finish_answer.
Qed.

(** The three writing routes test the identity before they write. *)
Lemma writes_need_identity (w : World Ext) (param : string -> option string) :
  truthy (userId w) = false ->
  ext (world_after (create_post w)) = ext w /\
  ext (world_after (update_post param w)) = ext w /\
  ext (world_after (delete_post param w)) = ext w.
Proof.
  intros Hid. split; [|split].
  - unfold Routes.create_post. unfold_run. simpl.
    destruct (req_json (request w)) as [data|[]]; simpl; try reflexivity.
    destruct (Routes.blogPostSchema_parse invalid_type_message invalid_tag_issue data)
      as [[[t b] g]|[]]; simpl; try reflexivity.
    rewrite Hid. reflexivity.
  - unfold Routes.update_post. unfold_run. simpl.
    destruct (req_json (request w)) as [data|[]]; simpl; try reflexivity.
    destruct (Routes.blogPostSchema_parse invalid_type_message invalid_tag_issue data)
      as [[[t b] g]|[]]; simpl; try reflexivity.
    rewrite Hid. reflexivity.
  - unfold Routes.delete_post. unfold_run. simpl. rewrite Hid. reflexivity.
Qed.

(** The run of [POST /posts] on an accepted body with an identity. *)
Lemma create_post_accepted (w : World Ext) (data : value)
    (title content : string) (tags : list string) :
  req_json (request w) = Normal data ->
  post_parse data = Normal (title, content, tags) ->
  truthy (userId w) = true ->
  ext (world_after (create_post w)) =
    fst (blog_create (ext w) (client w) title content tags (userId w)) /\
  forall row,
    snd (blog_create (ext w) (client w) title content tags (userId w)) = Normal row ->
    outcome (create_post w) =
      Normal (mkResponse 200 (JsonBody (VObj [("message", VStr "Blog created successfully");
                                              ("userId", userId w)]))).
Proof.
  intros Hj Hp Hid. unfold Routes.create_post. unfold_run. simpl.
  rewrite Hj. simpl. rewrite Hp. simpl. rewrite Hid. simpl.
  destruct (blog_create (ext w) (client w) title content tags (userId w))
    as [db [row|e]]; simpl.
  - split; [reflexivity|]. intros _ _. reflexivity.
  - split; [destruct e; reflexivity|]. intros row [=].
Qed.

(** X8. No exception escapes a route handler, and none of them touches the
    request, the bindings or the context variables: whatever the database
    and the validators do, each handler completes with a response. *)
Theorem handlers_always_answer :
  answers_and_keeps_context signup /\
  answers_and_keeps_context create_post /\
  answers_and_keeps_context get_posts /\
  answers_and_keeps_context my_posts /\
  (forall param, answers_and_keeps_context (get_post param)) /\
  (forall param, answers_and_keeps_context (update_post param)) /\
  (forall param, answers_and_keeps_context (delete_post param)).
Proof.
  repeat split; intros;
    first [apply signup_always_answers | apply create_post_always_answers
          | apply get_posts_always_answers | apply my_posts_always_answers
          | apply get_post_always_answers | apply update_post_always_answers
          | apply delete_post_always_answers].
Qed.

(** X9. Signup answers 201 exactly when the body parses, the schema accepts
    it, no row has the e-mail address or the user name, and the insert
    succeeds; every other answer is 400 or 500. *)
Theorem signup_answers_201_iff (w : World Ext) (r : Response) :
  outcome (signup w) = Normal r ->
  (status r = 201 \/ status r = 400 \/ status r = 500) /\
  (status r = 201 <->
   exists data username email password row,
     req_json (request w) = Normal data /\
     signup_parse data = Normal (username, email, password) /\
     user_findFirst (ext w) (client w) email username = Normal None /\
     snd (user_create (ext w) (client w) username email password) = Normal row /\
     body r = JsonBody (VObj [("message", VStr "User created successfully");
                              ("user", user_json row)])).
Proof.
  unfold Routes.signup. unfold_run. simpl.
  destruct (req_json (request w)) as [data|e0] eqn:Hj; simpl.
  2: { destruct e0; intros [= <-]; (split; [simpl; auto|]);
       (split; [discriminate|]); intros (? & ? & ? & ? & ? & [=] & _). }
  destruct (Routes.userSignupSchema_parse is_email invalid_type_message data)
    as [[[u e] p]|e0] eqn:Hp; simpl.
  2: { destruct e0; intros [= <-]; (split; [simpl; auto|]);
       (split; [discriminate|]); intros (? & ? & ? & ? & ? & [= <-] & Hp' & _);
       congruence. }
  destruct (user_findFirst (ext w) (client w) e u) as [[found|]|e0] eqn:Hf; simpl.
  3: { destruct e0; intros [= <-]; (split; [simpl; auto|]);
       (split; [discriminate|]); intros (? & ? & ? & ? & ? & [= <-] & Hp' & Hf' & _);
       rewrite Hp in Hp'; injection Hp' as <- <- <-; congruence. }
  1: { intros [= <-]; (split; [simpl; auto|]);
       (split; [discriminate|]); intros (? & ? & ? & ? & ? & [= <-] & Hp' & Hf' & _);
       rewrite Hp in Hp'; injection Hp' as <- <- <-; congruence. }
  destruct (user_create (ext w) (client w) u e p) as [db [row|e0]] eqn:Hc; simpl.
  2: { destruct e0; intros [= <-]; (split; [simpl; auto|]);
       (split; [discriminate|]);
       intros (? & ? & ? & ? & ? & [= <-] & Hp' & Hf' & Hc' & _);
       rewrite Hp in Hp'; injection Hp' as <- <- <-; rewrite Hc in Hc'; discriminate. }
  intros [= <-]. split; [simpl; auto|]. split; [|reflexivity].
  intros _. exists data, u, e, p, row. rewrite Hc. auto.
Qed.

(** X10. The users table changes only through an insert of a user name, an
    e-mail address and a password that the schema accepted (lengths in
    UTF-16 code units) and that no existing row shares; the password is
    stored as it was submitted. *)
Theorem signup_writes_only_validated_new_users (w : World Ext) :
  ext (world_after (signup w)) <> ext w ->
  exists data username email password,
    req_json (request w) = Normal data /\
    signup_parse data = Normal (username, email, password) /\
    (3 <= js_length username)%nat /\ is_email email = true /\
    (6 <= js_length password)%nat /\
    user_findFirst (ext w) (client w) email username = Normal None /\
    ext (world_after (signup w)) =
      fst (user_create (ext w) (client w) username email password).
Proof.
  unfold Routes.signup. unfold_run. simpl.
  destruct (req_json (request w)) as [data|e0] eqn:Hj; simpl.
  2: { destruct e0; intros H; now destruct H. }
  destruct (Routes.userSignupSchema_parse is_email invalid_type_message data)
    as [[[u e] p]|e0] eqn:Hp; simpl.
  2: { destruct e0; intros H; now destruct H. }
  destruct (user_findFirst (ext w) (client w) e u) as [[found|]|e0] eqn:Hf; simpl.
  3: { destruct e0; intros H; now destruct H. }
  1: { intros H; now destruct H. }
  intros _. exists data, u, e, p.
  destruct (signup_schema_accepted is_email invalid_type_message data u e p Hp)
    as (fields & _ & _ & Hu & _ & He & _ & Hl).
  repeat (split; [reflexivity || assumption|]).
  destruct (user_create (ext w) (client w) u e p) as [db [row|[]]]; reflexivity.
Qed.

(** X11. The blogs table changes through [POST /posts] only by an insert
    whose title, body and tags the schema accepted (lengths in UTF-16 code
    units; at most ten tags, each an allowed one) and whose [userId] is the
    truthy id of the context. *)
Theorem create_post_writes_only_validated_posts (w : World Ext) :
  ext (world_after (create_post w)) <> ext w ->
  exists data title body tags,
    req_json (request w) = Normal data /\
    post_parse data = Normal (title, body, tags) /\
    (3 <= js_length title)%nat /\ (10 <= js_length body)%nat /\
    (length tags <= 10)%nat /\ Forall (fun tag => tag ∈ allowedTags) tags /\
    truthy (userId w) = true /\
    ext (world_after (create_post w)) =
      fst (blog_create (ext w) (client w) title body tags (userId w)).
Proof.
  unfold Routes.create_post. unfold_run. simpl.
  destruct (req_json (request w)) as [data|e0] eqn:Hj; simpl.
  2: { destruct e0; intros H; now destruct H. }
  destruct (Routes.blogPostSchema_parse invalid_type_message invalid_tag_issue data)
    as [[[t b] g]|e0] eqn:Hp; simpl.
  2: { destruct e0; intros H; now destruct H. }
  destruct (truthy (userId w)) eqn:Hid; simpl.
  2: { intros H; now destruct H. }
  intros _. exists data, t, b, g.
  destruct (blog_schema_accepted invalid_type_message invalid_tag_issue
              _ data t b g Hp)
    as (fields & _ & _ & Ht & _ & Hb & _ & Hg & Hall).
  repeat (split; [reflexivity || assumption|]).
  destruct (blog_create (ext w) (client w) t b g (userId w)) as [db [row|[]]]; reflexivity.
Qed.

(** X12. Without a truthy [id] in the context's user (a claim without [id],
    or with [id] 0) none of the three writing routes touches the database,
    and none answers 200; [DELETE] answers 400 "User ID is required". *)
Theorem no_write_without_identity (w : World Ext) (param : string -> option string) :
  truthy (userId w) = false ->
  (ext (world_after (create_post w)) = ext w /\
   forall r, outcome (create_post w) = Normal r -> status r <> 200) /\
  (ext (world_after (update_post param w)) = ext w /\
   forall r, outcome (update_post param w) = Normal r -> status r <> 200) /\
  (ext (world_after (delete_post param w)) = ext w /\
   outcome (delete_post param w) =
     Normal (mkResponse 400 (JsonBody (VObj [("message", VStr "User ID is required")])))).
Proof.
  intros Hid. split; [|split].
  - unfold Routes.create_post. unfold_run. simpl.
    destruct (req_json (request w)) as [data|[]]; simpl;
      try (split; [reflexivity | intros r [= <-]; discriminate]).
    destruct (Routes.blogPostSchema_parse invalid_type_message invalid_tag_issue data)
      as [[[t b] g]|[]]; simpl;
      try (split; [reflexivity | intros r [= <-]; discriminate]).
    rewrite Hid. simpl. split; [reflexivity | intros r [= <-]; discriminate].
  - unfold Routes.update_post. unfold_run. simpl.
    destruct (req_json (request w)) as [data|[]]; simpl;
      try (split; [reflexivity | intros r [= <-]; discriminate]).
    destruct (Routes.blogPostSchema_parse invalid_type_message invalid_tag_issue data)
      as [[[t b] g]|[]]; simpl;
      try (split; [reflexivity | intros r [= <-]; discriminate]).
    rewrite Hid. simpl. split; [reflexivity | intros r [= <-]; discriminate].
  - unfold Routes.delete_post. unfold_run. simpl. rewrite Hid. simpl.
    split; reflexivity.
Qed.

(** X13. A 200 from [PUT /posts/:id] carries the request body as it was
    received under [todo], not the stored row; the [id] of the path goes to
    the update unchecked, whatever [Number] made of it. *)
Theorem update_post_echoes_the_request
    (w : World Ext) (param : string -> option string) (r : Response) :
  outcome (update_post param w) = Normal r ->
  status r = 200 ->
  exists data title content tags row,
    req_json (request w) = Normal data /\
    post_parse data = Normal (title, content, tags) /\
    truthy (userId w) = true /\
    blog_update (ext w) (client w) (userId w) (Number (param "id")) title content tags
      = (ext (world_after (update_post param w)), Normal row) /\
    body r = JsonBody (VObj [("message", VStr "Blog updated successfully");
                             ("todo", data)]).
Proof.
  unfold Routes.update_post. unfold_run. simpl.
  destruct (req_json (request w)) as [data|e0] eqn:Hj; simpl.
  2: { destruct e0; intros [= <-]; discriminate. }
  destruct (Routes.blogPostSchema_parse invalid_type_message invalid_tag_issue data)
    as [[[t b] g]|e0] eqn:Hp; simpl.
  2: { destruct e0; intros [= <-]; discriminate. }
  destruct (truthy (userId w)) eqn:Hid; simpl.
  2: { intros [= <-]; discriminate. }
  destruct (blog_update (ext w) (client w) (userId w) (Number (param "id")) t b g)
    as [db [row|e0]] eqn:Hu; simpl.
  2: { destruct e0; intros [= <-]; discriminate. }
  intros [= <-] _. exists data, t, b, g, row. auto.
Qed.

(** X14. [DELETE /posts/:id] reports every failure of the delete statement
    (no such post, a post of another user) as 500 "Internal server error",
    and writes nothing to the console. *)
Theorem delete_post_reports_failures_as_500
    (w : World Ext) (param : string -> option string) (e : error) :
  truthy (userId w) = true ->
  snd (blog_delete (ext w) (client w) (Number (param "id")) (userId w)) = Thrown e ->
  outcome (delete_post param w) =
    Normal (mkResponse 500 (JsonBody (VObj [("message", VStr "Internal server error")]))) /\
  events (delete_post param w) = [].
Proof.
  intros Hid Hd. unfold Routes.delete_post. unfold_run. simpl. rewrite Hid. simpl.
  destruct (blog_delete (ext w) (client w) (Number (param "id")) (userId w)) as [db res].
  simpl in Hd. subst res. split; reflexivity.
Qed.

(** X15. [GET /myposts] reads a JSON body before anything else: when the
    request has none that parses, the answer is the error reply (500 unless
    the error is a [ZodError]), whoever the caller is, and the posts are not
    queried. *)
Theorem my_posts_needs_a_json_body (w : World Ext) (e : error) :
  req_json (request w) = Thrown e ->
  outcome (my_posts w) = Normal (error_reply e) /\
  (status (error_reply e) = 400 \/ status (error_reply e) = 500) /\
  events (my_posts w) = [EvLog e] /\
  world_after (my_posts w) = w.
Proof.
  intros Hj. unfold Routes.my_posts. unfold_run. simpl. rewrite Hj. simpl.
  repeat split; destruct e; simpl; auto.
Qed.

(** X16. A post that does not exist is answered 200 with [todo: null]. *)
Theorem get_post_of_a_missing_post_is_200_null
    (w : World Ext) (param : string -> option string) :
  number_truthy (Number (param "id")) = true ->
  blog_findUnique (ext w) (client w) (Number (param "id")) = Normal None ->
  outcome (get_post param w) =
    Normal (mkResponse 200 (JsonBody (VObj [("message", VStr "Blog fetched successfully");
                                            ("todo", VNull)]))).
Proof.
  intros Hid Hf. unfold Routes.get_post. unfold_run. simpl. rewrite Hid. simpl.
  rewrite Hf. reflexivity.
Qed.

(** X17. [GET /posts/:id] answers 400 "Blog id is required" exactly when
    [Number] of the path parameter is [NaN] or 0, and then without a query. *)
Theorem get_post_rejects_iff_zero_or_NaN (w : World Ext) (param : string -> option string) :
  outcome (get_post param w) =
    Normal (mkResponse 400 (JsonBody (VObj [("message", VStr "Blog id is required")])))
  <-> (Number (param "id") = NaN \/ Number (param "id") = Num 0).
Proof.
  unfold Routes.get_post. unfold_run. simpl.
  destruct (Number (param "id")) as [|n] eqn:Hn; simpl.
  - split; auto.
  - destruct (n =? 0) eqn:Hz; simpl.
    + apply Z.eqb_eq in Hz. subst n. split; auto.
    + apply Z.eqb_neq in Hz.
      destruct (blog_findUnique (ext w) (client w) (Num n)); simpl;
        (split; [discriminate | intros [H|H]; [discriminate | congruence]]).
Qed.

(** X18. [GET /posts], [GET /posts/:id] and [DELETE /posts/:id] never write
    to the console, not even when they answer 500. *)
Theorem silent_routes_never_log (w : World Ext) (param : string -> option string) :
  events (get_posts w) = [] /\
  events (get_post param w) = [] /\
  events (delete_post param w) = [].
Proof.
  split; [|split].
  - unfold Routes.get_posts. unfold_run. simpl.
    destruct (blog_findMany_select (ext w) (client w)); reflexivity.
  - unfold Routes.get_post. unfold_run. simpl.
    destruct (number_truthy (Number (param "id"))); simpl; [|reflexivity].
    destruct (blog_findUnique (ext w) (client w) (Number (param "id"))); reflexivity.
  - unfold Routes.delete_post. unfold_run. simpl.
    destruct (truthy (userId w)); simpl; [|reflexivity].
    destruct (blog_delete (ext w) (client w) (Number (param "id")) (userId w))
      as [db [row|e]]; reflexivity.
Qed.

End RouteAnswers.

(** ** The gate in front of the handlers *)

Section GateAnswers.

Context {Ext : Type}.
Variable verify : string -> string -> completion value.
Variable next : World Ext -> World Ext * completion unit.

Abbreviation gate := (Middleware.authMiddleware verify next).

(** X19. The gate asks the codec exactly when the header is ["Bearer "]
    followed by anything, the empty string included; what it asks about is
    that rest, untrimmed, under the literal secret. *)
Theorem verification_is_attempted_iff_bearer_prefix (w : World Ext) :
  ((exists token secret, EvVerify token secret ∈ events (gate w)) <->
   (exists token, req_header (request w) "Authorization" = Some ("Bearer " +:+ token))) /\
  (forall token secret,
     EvVerify token secret ∈ events (gate w) ->
     req_header (request w) "Authorization" = Some ("Bearer " +:+ token) /\
     secret = "BLOG_SECRET").
Proof.
  assert (Hrun : forall h, req_header (request w) "Authorization" = Some h ->
            startsWith h "Bearer " = true ->
            exists tail, events (gate w) = EvVerify (slice h 7) "BLOG_SECRET" :: tail /\
                         forall token secret, EvVerify token secret ∉ tail).
  { intros h Hh Hp.
    destruct (gate_cases verify next w) as
      [[Hr G] | (h' & Hh' & _ & [(e & Hv & G) | [(d & Hv & Ht & G) | (d & Hv & Ht & Hw & tail & Hev & Htail)]])].
    - rewrite Hh, (header_accepted h Hp) in Hr. discriminate.
    - rewrite Hh in Hh'. injection Hh' as <-. rewrite G. eexists. split; [reflexivity|].
      intros token secret Hin. no_such_event Hin.
    - rewrite Hh in Hh'. injection Hh' as <-. rewrite G. eexists. split; [reflexivity|].
      intros token secret Hin. no_such_event Hin.
    - rewrite Hh in Hh'. injection Hh' as <-. rewrite Hev. eexists. split; [reflexivity|].
      intros token secret Hin.
      apply elem_of_cons in Hin as [Hin|Hin]; [discriminate Hin|].
      apply elem_of_cons in Hin as [Hin|Hin]; [discriminate Hin|].
      destruct tail as [|ev tail']; [no_such_event Hin|].
      destruct (next (set_var "user" d w)) as [w' [[]|e]] eqn:Hn.
      + pose proof (gate_verify_truthy verify next w d) as G'. rewrite Hh in G'.
        change (Middleware.token_of (Some h)) with (slice h 7) in G'.
        specialize (G' (header_accepted h Hp) Hv Ht). rewrite Hn in G'.
        rewrite G' in Hev. discriminate Hev.
      + pose proof (gate_verify_truthy verify next w d) as G'. rewrite Hh in G'.
        change (Middleware.token_of (Some h)) with (slice h 7) in G'.
        specialize (G' (header_accepted h Hp) Hv Ht). rewrite Hn in G'.
        rewrite G' in Hev. injection Hev as <- <-. no_such_event Hin. }
  assert (Hsound : forall token secret,
            EvVerify token secret ∈ events (gate w) ->
            req_header (request w) "Authorization" = Some ("Bearer " +:+ token) /\
            secret = "BLOG_SECRET").
  { intros token secret Hin.
    destruct (Middleware.header_rejected (req_header (request w) "Authorization")) eqn:Hr.
    { rewrite (gate_denied verify next w Hr) in Hin. no_such_event Hin. }
    destruct (req_header (request w) "Authorization") as [h|] eqn:Hh; [|discriminate].
    assert (Hp : startsWith h "Bearer " = true).
    { unfold Middleware.header_rejected in Hr. apply orb_false_elim in Hr as [_ Hr].
      now apply negb_false_iff in Hr. }
    destruct (Hrun h eq_refl Hp) as (tail & Hev & Htail). rewrite Hev in Hin.
    apply elem_of_cons in Hin as [Hin|Hin]; [|destruct (Htail _ _ Hin)].
    injection Hin as -> ->. split; [|reflexivity].
    f_equal. exact (startsWith_split "Bearer " h Hp). }
  split; [|exact Hsound]. split.
  - intros (token & secret & Hin). exists token. apply (Hsound _ _ Hin).
  - intros (token & Hh).
    destruct (Hrun _ Hh (startsWith_app "Bearer " token)) as (tail & Hev & _).
    do 2 eexists. rewrite Hev. apply elem_of_cons. now left.
Qed.

(** X20. The gate itself never throws.  The responses it produces are 400
    and 401 only, and it completes without one exactly when the request is
    accepted and the rest of the chain completes. *)
Theorem gate_answers (w : World Ext) :
  exists o,
    outcome (gate w) = Normal o /\
    (forall r, o = Some r -> status r = 400 \/ status r = 401) /\
    (o = None <->
     exists decoded, accepted verify w decoded /\
                     snd (next (set_var "user" decoded w)) = Normal tt).
Proof.
  destruct (gate_cases verify next w) as
    [[Hr G] | (h & Hh & Hp & [(e & Hv & G) | [(d & Hv & Ht & G) | (d & Hv & Ht & Hw & _)]])].
  - rewrite G. eexists. split; [reflexivity|]. split.
    + intros r [= <-]. now right.
    + split; [discriminate|]. intros (d & (h & Hh & Hp & _) & _).
      rewrite Hh, (header_accepted h Hp) in Hr. discriminate.
  - rewrite G. eexists. split; [reflexivity|]. split.
    + intros r [= <-]. now left.
    + split; [discriminate|]. intros (d & (h' & Hh' & _ & Hv' & _) & _).
      rewrite Hh in Hh'. injection Hh' as <-. congruence.
  - rewrite G. eexists. split; [reflexivity|]. split.
    + intros r [= <-]. now right.
    + split; [discriminate|]. intros (d' & (h' & Hh' & _ & Hv' & Ht') & _).
      rewrite Hh in Hh'. injection Hh' as <-. rewrite Hv in Hv'. injection Hv' as <-.
      congruence.
  - pose proof (gate_verify_truthy verify next w d) as G. rewrite Hh in G.
    change (Middleware.token_of (Some h)) with (slice h 7) in G.
    specialize (G (header_accepted h Hp) Hv Ht). rewrite G.
    assert (Honly : forall d', accepted verify w d' -> d' = d).
    { intros d' (h' & Hh' & _ & Hv' & _). rewrite Hh in Hh'. injection Hh' as <-.
      rewrite Hv in Hv'. now injection Hv'. }
    destruct (next (set_var "user" d w)) as [w' [[]|e]] eqn:Hn; simpl.
    + eexists. split; [reflexivity|]. split; [discriminate|].
      split; [|reflexivity]. intros _. exists d. rewrite Hn. split; [|reflexivity].
      exists h. auto.
    + eexists. split; [reflexivity|]. split.
      * intros r [= <-]. now left.
      * split; [discriminate|]. intros (d' & Hacc & Hres).
        rewrite (Honly _ Hacc), Hn in Hres. discriminate.
Qed.

End GateAnswers.

Section ProtectedRoutes.

Context {Ext : Type}.
Variable verify : string -> string -> completion value.
Variable sign : value -> string -> completion string.
Variable is_email : string -> bool.
Variable invalid_type_message : value -> string.
Variable invalid_tag_issue : nat -> value -> zod_issue.
Variable Number : option string -> number.
Variable user_findUnique : Ext -> string -> string -> string -> completion (option User).
Variable blog_create :
  Ext -> string -> string -> string -> list string -> value -> Ext * completion Blog.
Variable blog_findMany_where : Ext -> string -> value -> completion (list Blog).
Variable blog_update :
  Ext -> string -> value -> number -> string -> string -> list string -> Ext * completion Blog.
Variable blog_delete : Ext -> string -> number -> value -> Ext * completion Blog.

Abbreviation create_post :=
  (Routes.create_post invalid_type_message invalid_tag_issue blog_create).
Abbreviation my_posts := (Routes.my_posts blog_findMany_where).
Abbreviation update_post :=
  (Routes.update_post invalid_type_message invalid_tag_issue Number blog_update).
Abbreviation delete_post := (Routes.delete_post Number blog_delete).
Abbreviation behind_gate handler := (Middleware.authMiddleware verify (as_next handler)).

(** The gate in front of a handler that always answers. *)
Lemma accepted_request_reaches_handler (handler : M Ext Response) (w : World Ext)
    (decoded : value) :
  answers_and_keeps_context handler ->
  accepted verify w decoded ->
  outcome (behind_gate handler w) = Normal None /\
  world_after (behind_gate handler w) = world_after (handler (set_var "user" decoded w)).
Proof.
  intros Hans (h & Hh & Hp & Hv & Ht).
  pose proof (gate_verify_truthy verify (as_next handler) w decoded) as G.
  rewrite Hh in G. change (Middleware.token_of (Some h)) with (slice h 7) in G.
  specialize (G (header_accepted h Hp) Hv Ht). rewrite G.
  destruct (Hans (set_var "user" decoded w)) as (r & Hr & _).
  unfold as_next. unfold outcome, world_after in *.
  destruct (handler (set_var "user" decoded w)) as [[tr w'] res]. simpl in Hr. subst res.
  split; reflexivity.
Qed.

Lemma refused_request_stops_at_gate (handler : M Ext Response) (w : World Ext) :
  (forall decoded, ~ accepted verify w decoded) ->
  world_after (behind_gate handler w) = w.
Proof.
  intros Hno.
  destruct (gate_cases verify (as_next handler) w) as
    [[Hr G] | (h & Hh & Hp & [(e & Hv & G) | [(d & Hv & Ht & G) | (d & Hv & Ht & _)]])];
    try (rewrite G; reflexivity).
  destruct (Hno d). exists h. auto.
Qed.

(** X21. Behind the gate, a verified request always reaches the handler and
    the gate completes without a response of its own: since the handlers
    catch everything, 400 "Invalid Token" is never the answer to a token
    the codec accepted.  The handler runs in the world where the context's
    [user] is the claim. *)
Theorem protected_routes_pass_control
    (w : World Ext) (decoded : value) (param : string -> option string) :
  accepted verify w decoded ->
  let handed_over := set_var "user" decoded w in
  (outcome (behind_gate create_post w) = Normal None /\
   world_after (behind_gate create_post w) = world_after (create_post handed_over)) /\
  (outcome (behind_gate my_posts w) = Normal None /\
   world_after (behind_gate my_posts w) = world_after (my_posts handed_over)) /\
  (outcome (behind_gate (update_post param) w) = Normal None /\
   world_after (behind_gate (update_post param) w)
     = world_after (update_post param handed_over)) /\
  (outcome (behind_gate (delete_post param) w) = Normal None /\
   world_after (behind_gate (delete_post param) w)
     = world_after (delete_post param handed_over)).
Proof.
  intros Hacc handed_over. split; [|split; [|split]];
    apply accepted_request_reaches_handler; try exact Hacc;
    first [apply create_post_always_answers | apply my_posts_always_answers
          | apply update_post_always_answers | apply delete_post_always_answers].
Qed.

(** X22. Through a protected route the database changes only for a request
    whose token the codec accepted and whose claim has a truthy [id]. *)
Theorem protected_writes_need_a_verified_identity
    (w : World Ext) (param : string -> option string) :
  ext (world_after (behind_gate create_post w)) <> ext w \/
  ext (world_after (behind_gate (update_post param) w)) <> ext w \/
  ext (world_after (behind_gate (delete_post param) w)) <> ext w ->
  exists decoded, accepted verify w decoded /\ truthy (opt_chain decoded "id") = true.
Proof.
  intros Hchanged.
  assert (Hdec : (exists d, accepted verify w d) \/ forall d, ~ accepted verify w d).
  { destruct (gate_cases verify (as_next create_post) w) as
      [[Hr G] | (h & Hh & Hp & [(e & Hv & G) | [(d & Hv & Ht & G) | (d & Hv & Ht & _)]])].
    - right. intros d (h & Hh & Hp & _).
      rewrite Hh, (header_accepted h Hp) in Hr. discriminate.
    - right. intros d (h' & Hh' & _ & Hv' & _). rewrite Hh in Hh'. injection Hh' as <-.
      congruence.
    - right. intros d' (h' & Hh' & _ & Hv' & Ht'). rewrite Hh in Hh'. injection Hh' as <-.
      rewrite Hv in Hv'. injection Hv' as <-. congruence.
    - left. exists d, h. auto. }
  destruct Hdec as [[d Hacc]|Hno].
  2: { rewrite !(refused_request_stops_at_gate _ w Hno) in Hchanged.
       destruct Hchanged as [H|[H|H]]; now destruct H. }
  exists d. split; [exact Hacc|].
  destruct (truthy (opt_chain d "id")) eqn:Hid; [reflexivity|].
  assert (Hu : truthy (userId (set_var "user" d w)) = false).
  { unfold userId, c_get, set_var; simpl. rewrite lookup_insert_eq. exact Hid. }
  destruct (writes_need_identity invalid_type_message invalid_tag_issue Number
              blog_create blog_update blog_delete (set_var "user" d w) param Hu)
    as (Hc & Hup & Hd).
  destruct (accepted_request_reaches_handler create_post w d
              (create_post_always_answers _ _ _) Hacc) as [_ Wc].
  destruct (accepted_request_reaches_handler (update_post param) w d
              (update_post_always_answers _ _ _ _ param) Hacc) as [_ Wu].
  destruct (accepted_request_reaches_handler (delete_post param) w d
              (delete_post_always_answers _ _ param) Hacc) as [_ Wd].
  rewrite Wc, Wu, Wd, Hc, Hup, Hd in Hchanged.
  destruct Hchanged as [H|[H|H]]; now destruct H.
Qed.

(** X23. From signin to a post: the token a signin issues for a row, sent to
    [POST /posts] with an accepted body, makes the insert run with that
    row's id as [userId] (when the codec returns the signed payload and the
    id is not 0), and the answer names the same id. *)
Theorem post_is_attributed_to_the_signed_in_user
    (w_signin w : World Ext) (credentials data : value)
    (email password token title content : string) (tags : list string) (user : User) :
  req_json (request w_signin) = Normal credentials ->
  Signin.userSigninSchema_parse is_email invalid_type_message credentials
    = Normal (email, password) ->
  user_findUnique (ext w_signin) (prismaClient (DATABASE_URL (env w_signin))) email password
    = Normal (Some user) ->
  sign (Signin.payload_of user) "BLOG_SECRET" = Normal token ->
  verify token "BLOG_SECRET" = Normal (Signin.payload_of user) ->
  req_header (request w) "Authorization" = Some ("Bearer " +:+ token) ->
  req_json (request w) = Normal data ->
  Routes.blogPostSchema_parse invalid_type_message invalid_tag_issue data
    = Normal (title, content, tags) ->
  user_id user <> 0 ->
  let insert :=
    blog_create (ext w) (prismaClient (DATABASE_URL (env w))) title content tags
                (VNum (user_id user)) in
  opt_chain (outcome_body
    (Signin.signin sign is_email invalid_type_message user_findUnique w_signin)) "token"
    = VStr token /\
  outcome (behind_gate create_post w) = Normal None /\
  ext (world_after (behind_gate create_post w)) = fst insert /\
  (forall row, snd insert = Normal row ->
     outcome (create_post (set_var "user" (Signin.payload_of user) w)) =
       Normal (mkResponse 200
         (JsonBody (VObj [("message", VStr "Blog created successfully");
                          ("userId", VNum (user_id user))])))).
Proof.
  intros Hj Hp Hu Hs Hv Hh Hd Hb Hid insert.
  split.
  { unfold outcome_body.
    rewrite (signin_found sign is_email invalid_type_message user_findUnique
               w_signin credentials email password user Hj Hp Hu), Hs.
    reflexivity. }
  assert (Hacc : accepted verify w (Signin.payload_of user)).
  { exists ("Bearer " +:+ token). repeat split; assumption || reflexivity. }
  destruct (accepted_request_reaches_handler create_post w _
              (create_post_always_answers _ _ _) Hacc) as [Ho Hw].
  split; [exact Ho|]. rewrite Hw.
  set (w1 := set_var "user" (Signin.payload_of user) w).
  assert (Hu1 : userId w1 = VNum (user_id user)).
  { unfold userId, c_get, w1, set_var; simpl. rewrite lookup_insert_eq. reflexivity. }
  assert (Ht1 : truthy (userId w1) = true).
  { rewrite Hu1. simpl. apply negb_true_iff. now apply Z.eqb_neq. }
  destruct (create_post_accepted invalid_type_message invalid_tag_issue blog_create
              w1 data title content tags Hd Hb Ht1) as [Hext Hout].
  rewrite Hu1 in Hext, Hout. split; [exact Hext | exact Hout].
Qed.

End ProtectedRoutes.

(** ** Runs of the routes *)

(** A signin body without a password is a validation failure. *)
Lemma rejected_signin_body_run :
  let data := VObj [("email", VStr "a@b.com")] in
  exists issues,
    Signin.userSigninSchema_parse has_at_sign type_message data = Thrown (ZodError issues) /\
    issues <> [] /\ status (error_reply (ZodError issues)) = 400.
Proof.
  intros data. eexists. split; [reflexivity|].
  destruct (schema_rejections_are_zod_errors has_at_sign type_message sample_tag_issue
              "" data _ (or_introl eq_refl)) as [(issues & Heq & Hne) Hst].
  injection Heq as <-. split; [exact Hne | exact Hst].
Defined.

(** Alice's signin signs her row and nothing else. *)
Lemma signin_signs_alice_run :
  exists user,
    find_user [sample_user] "prisma://db" "a@b.com" "hunter22" = Normal (Some user) /\
    Signin.payload_of sample_user = Signin.payload_of user.
Proof.
  assert (Hin : EvSign (Signin.payload_of sample_user) "BLOG_SECRET"
                ∈ events (Signin.signin RefCodec.sign has_at_sign type_message find_user
                            signin_world)).
  { apply elem_of_cons. left. reflexivity. }
  destruct (signin_signs_only_for_a_found_row RefCodec.sign has_at_sign type_message
              find_user signin_world _ _ Hin)
    as (data & email & password & user & Hj & Hp & Hu & Hpay & _).
  injection Hj as <-. injection Hp as <- <-.
  exists user. split; [exact Hu | exact Hpay].
Defined.

(** Bob signs up: 201, and the row is in the answer. *)
Lemma signup_run :
  let w := api_world None (Normal sample_signup_body) None in
  exists r,
    outcome (Routes.signup has_at_sign type_message sample_findFirst sample_user_create w)
      = Normal r /\
    status r = 201.
Proof.
  intros w. eexists. split; [reflexivity|].
  apply (signup_answers_201_iff has_at_sign type_message sample_findFirst
           sample_user_create w _ eq_refl).
  exists sample_signup_body, "bob", "bob@b.com", "s3cret!",
         (mkUser 2 "bob" "bob@b.com" "s3cret!").
  repeat split.
Defined.

(** Bob's signup adds a row with his password as he sent it. *)
Lemma signup_write_run :
  let w := api_world None (Normal sample_signup_body) None in
  exists username email password,
    db_users (ext (world_after
      (Routes.signup has_at_sign type_message sample_findFirst sample_user_create w)))
      = [sample_user; mkUser 2 username email password] /\
    password = "s3cret!".
Proof.
  intros w.
  assert (Hchanged :
    ext (world_after
      (Routes.signup has_at_sign type_message sample_findFirst sample_user_create w))
    <> ext w) by (vm_compute; discriminate).
  destruct (signup_writes_only_validated_new_users has_at_sign type_message
              sample_findFirst sample_user_create w Hchanged)
    as (data & username & email & password & Hj & Hp & _ & _ & _ & _ & Hext).
  injection Hj as <-. injection Hp as <- <- <-.
  exists "bob", "bob@b.com", "s3cret!". rewrite Hext. split; reflexivity.
Defined.

(** A post by user 1. *)
Lemma create_post_write_run :
  let w := api_world None (Normal sample_post_body) (Some (VObj [("id", VNum 1)])) in
  exists tags,
    Forall (fun tag => tag ∈ allowedTags) tags /\
    length (db_blogs (ext (world_after
      (Routes.create_post type_message sample_tag_issue sample_blog_create w)))) = 2%nat.
Proof.
  intros w.
  assert (Hchanged :
    ext (world_after (Routes.create_post type_message sample_tag_issue sample_blog_create w))
    <> ext w) by (vm_compute; discriminate).
  destruct (create_post_writes_only_validated_posts type_message sample_tag_issue
              sample_blog_create w Hchanged)
    as (data & title & content & tags & _ & _ & _ & _ & _ & Hall & _ & _).
  exists tags. split; [exact Hall | reflexivity].
Defined.

(** A claim without an id gets nowhere. *)
Lemma no_identity_run :
  let w := api_world None (Normal sample_post_body) (Some (VObj [])) in
  truthy (userId w) = false /\
  ext (world_after (Routes.delete_post sample_Number sample_blog_delete (path_id "1") w))
    = sample_db.
Proof.
  intros w. split; [reflexivity|].
  apply (no_write_without_identity type_message sample_tag_issue sample_Number
           sample_blog_create sample_blog_update sample_blog_delete w (path_id "1") eq_refl).
Defined.

(** The update answers with the body it was sent, the extra key included. *)
Lemma update_echo_run :
  let w := api_world None (Normal sample_post_body) (Some (VObj [("id", VNum 1)])) in
  exists r data,
    outcome (Routes.update_post type_message sample_tag_issue sample_Number
               sample_blog_update (path_id "1") w) = Normal r /\
    body r = JsonBody (VObj [("message", VStr "Blog updated successfully"); ("todo", data)]) /\
    opt_chain data "draft" = VBool true.
Proof.
  intros w. eexists.
  destruct (update_post_echoes_the_request type_message sample_tag_issue sample_Number
              sample_blog_update w (path_id "1") _ eq_refl eq_refl)
    as (data & title & content & tags & row & Hj & _ & _ & _ & Hbody).
  exists data. split; [reflexivity|]. split; [exact Hbody|].
  injection Hj as <-. reflexivity.
Defined.

(** Deleting a post that is not there. *)
Lemma delete_missing_run :
  let w := api_world None no_json (Some (VObj [("id", VNum 1)])) in
  outcome (Routes.delete_post sample_Number sample_blog_delete (path_id "7") w) =
    Normal (mkResponse 500 (JsonBody (VObj [("message", VStr "Internal server error")]))).
Proof.
  intros w.
  apply (delete_post_reports_failures_as_500 sample_Number sample_blog_delete w
           (path_id "7") (OtherError "Record to delete does not exist") eq_refl eq_refl).
Defined.

(** [GET /myposts] without a body, by a signed-in user. *)
Lemma my_posts_without_body_run :
  let w := api_world None no_json (Some (VObj [("id", VNum 1)])) in
  outcome (Routes.my_posts sample_findMany_where w) =
    Normal (mkResponse 500 (JsonBody (VObj [("message", VStr "Internal server error")]))).
Proof.
  intros w.
  apply (my_posts_needs_a_json_body sample_findMany_where w
           (OtherError "Unexpected end of JSON input") eq_refl).
Defined.

(** Post 7 does not exist. *)
Lemma get_missing_post_run :
  let w := api_world None no_json None in
  sample_findUnique sample_db "prisma://db" (Num 7) = Normal None /\
  outcome (Routes.get_post sample_Number sample_findUnique (path_id "7") w) =
    Normal (mkResponse 200 (JsonBody (VObj [("message", VStr "Blog fetched successfully");
                                            ("todo", VNull)]))).
Proof.
  intros w. split; [reflexivity|].
  apply (get_post_of_a_missing_post_is_200_null sample_Number sample_findUnique w
           (path_id "7") eq_refl eq_refl).
Defined.

Lemma alice_is_accepted :
  accepted RefCodec.verify
    (api_world (Some ("Bearer " +:+ alice_token)) (Normal sample_post_body) None)
    claim_of_alice.
Proof.
  exists ("Bearer " +:+ alice_token).
  split; [reflexivity|]. split; [reflexivity|]. split; [vm_compute; reflexivity|].
  reflexivity.
Defined.

(** Alice's token in front of [DELETE /posts/1]. *)
Lemma protected_delete_run :
  let w := api_world (Some ("Bearer " +:+ alice_token)) (Normal sample_post_body) None in
  outcome (Middleware.authMiddleware RefCodec.verify
             (as_next (Routes.delete_post sample_Number sample_blog_delete (path_id "1"))) w)
    = Normal None.
Proof.
  intros w.
  apply (protected_routes_pass_control RefCodec.verify type_message sample_tag_issue
           sample_Number sample_blog_create sample_findMany_where sample_blog_update
           sample_blog_delete w claim_of_alice (path_id "1") alice_is_accepted).
Defined.

(** The post Alice's request adds was added for a verified claim with an
    id. *)
Lemma protected_write_run :
  let w := api_world (Some ("Bearer " +:+ alice_token)) (Normal sample_post_body) None in
  exists decoded,
    accepted RefCodec.verify w decoded /\ truthy (opt_chain decoded "id") = true.
Proof.
  intros w.
  apply (protected_writes_need_a_verified_identity RefCodec.verify type_message
           sample_tag_issue sample_Number sample_blog_create sample_blog_update
           sample_blog_delete w (path_id "1")).
  left. vm_compute. discriminate.
Defined.

(** Alice signs in and posts: the new row is hers. *)
Lemma signin_then_post_run :
  let w_signin :=
    api_world None (Normal (VObj [("email", VStr "a@b.com"); ("password", VStr "hunter22")]))
              None in
  let w := api_world (Some ("Bearer " +:+ alice_token)) (Normal sample_post_body) None in
  db_blogs (ext (world_after
    (Middleware.authMiddleware RefCodec.verify
       (as_next (Routes.create_post type_message sample_tag_issue sample_blog_create)) w)))
  = [sample_post;
     mkBlog 2 "Second" "Another post, longer." ["Tech Trends"; "Finance Tips"] 1].
Proof.
  intros w_signin w.
  destruct (post_is_attributed_to_the_signed_in_user RefCodec.verify RefCodec.sign
              has_at_sign type_message sample_tag_issue sample_findUnique_user
              sample_blog_create w_signin w
              (VObj [("email", VStr "a@b.com"); ("password", VStr "hunter22")])
              sample_post_body "a@b.com" "hunter22" alice_token
              "Second" "Another post, longer." ["Tech Trends"; "Finance Tips"] sample_user
              eq_refl eq_refl eq_refl eq_refl
              ltac:(vm_compute; reflexivity) eq_refl eq_refl eq_refl ltac:(discriminate))
    as (_ & _ & Hext & _).
  rewrite Hext. reflexivity.
Defined.

(** A token whose claim is the empty object passes the gate. *)
Lemma empty_claim_run :
  let w := world_with_header (Some "Bearer anything") in
  EvNext ∈ events (Middleware.authMiddleware verify_empty_object next_done w).
Proof.
  intros w.
  apply (empty_object_claim_passes verify_empty_object next_done w "Bearer anything"
           eq_refl eq_refl eq_refl).
Defined.

(** A chain that rejects behind a valid token: 400 "Invalid Token". *)
Lemma downstream_rejection_run :
  let w := world_with_header (Some ("Bearer " +:+ token_for sample_claim "BLOG_SECRET")) in
  outcome (Middleware.authMiddleware RefCodec.verify next_rejects w) =
    Normal (Some (mkResponse 400 (JsonBody (VObj [("message", VStr "Invalid Token")])))).
Proof.
  intros w.
  apply (rejection_downstream_is_reported_as_invalid_token RefCodec.verify next_rejects w
           ("Bearer " +:+ token_for sample_claim "BLOG_SECRET") sample_claim
           (set_var "user" sample_claim w) (OtherError "boom")
           eq_refl eq_refl ltac:(vm_compute; reflexivity) eq_refl eq_refl).
Defined.

(** A password of three characters in nine bytes is too short for the
    signin schema, and a one-character user name for signup. *)
Example multibyte_password_is_rejected :
  exists issues,
    Signin.userSigninSchema_parse has_at_sign type_message
      (VObj [("email", VStr "a@b.com"); ("password", VStr "日本語")])
    = Thrown (ZodError issues).
Proof. eexists. reflexivity. Qed.

Example multibyte_signup_is_not_inserted :
  let w := api_world None
             (Normal (VObj [("username", VStr "日"); ("email", VStr "c@b.com");
                            ("password", VStr "日本")])) None in
  ext (world_after
    (Routes.signup has_at_sign type_message sample_findFirst sample_user_create w))
  = sample_db /\
  exists r,
    outcome (Routes.signup has_at_sign type_message sample_findFirst sample_user_create w)
      = Normal r /\ status r = 400.
Proof. split; [reflexivity|]. eexists. split; reflexivity. Qed.

Example short_multibyte_post_is_rejected :
  exists issues,
    Routes.blogPostSchema_parse type_message sample_tag_issue
      (VObj [("title", VStr "日"); ("body", VStr "日本語!"); ("tags", VArr [])])
    = Thrown (ZodError issues).
Proof. eexists. reflexivity. Qed.
